(** * ai_trader_bot: decision-and-learning core

    A shallow embedding of the scoring, sentiment, adaptive-memory,
    decision-learning and order-construction code of [ai_trader_bot],
    followed by the properties established about it.

    Modelling conventions.
    - A Python [float] is a real number ([R]); [min], [max], [abs] are
      [Rmin], [Rmax], [Rabs]; [x ** 0.5] and [statistics.stdev] use [sqrt].
      Rounding, infinities and NaN are outside the model.
    - A Python [int] is a [Z]; lengths and counters that never go negative
      are [nat].
    - A [dict] with string keys is a [gmap string _]; a dict whose
      iteration order is observed (feature and source profiles, portfolio
      positions) is the list of its items in insertion order.
    - A function that can raise returns a [result]; the exception is named.
    - The wall clock and the UUID generator are inputs of the operations
      that read them.
    - The stores keep their state in memory and write it out after each
      mutation ([_save], [_append_journal]); a failed write is logged and
      ignored. The model has the in-memory state and the journal as a list;
      reading a state file back ([_load]) is not modelled, except that a
      ledger entry may carry the ill-typed fields a file can contain. *)

From Stdlib Require Import Reals Lra List ZArith String Ascii Lia Sorted Permutation.
From stdpp Require Import gmap strings.

Open Scope R_scope.

(** ** Python runtime: exceptions, float comparison and division *)

Inductive exn : Type :=
| ZeroDivisionError
| IndexError
| StatisticsError
| AttributeError.

Inductive result (A : Type) : Type :=
| Return (a : A)
| Raise (e : exn).

Arguments Return {A} a.
Arguments Raise {A} e.

#[global] Instance result_bind : MBind result := fun A B k r =>
  match r with
  | Return a => k a
  | Raise e => Raise e
  end.

Definition Rle_bool (x y : R) : bool := if Rle_dec x y then true else false.
Definition Rlt_bool (x y : R) : bool := if Rlt_dec x y then true else false.
Definition Req_bool (x y : R) : bool := if Req_dec_T x y then true else false.

(** [x / y] on floats: raises on a zero divisor. *)
Definition truediv (x y : R) : result R :=
  if Req_bool y 0 then Raise ZeroDivisionError else Return (x / y).

(** [l[-n]] for [n >= 1]. *)
Definition neg_index (l : list R) (n : nat) : result R :=
  if (n <=? length l)%nat then
    match nth_error l (length l - n) with
    | Some x => Return x
    | None => Raise IndexError
    end
  else Raise IndexError.

(** [l[-n:]] for [n >= 1]: the whole list when it is shorter than [n]. *)
Definition tail_slice {A : Type} (n : nat) (l : list A) : list A :=
  skipn (length l - n) l.

Definition fsum (l : list R) : R := fold_right Rplus 0 l.

(** [statistics.fmean]. *)
Definition fmean (l : list R) : result R :=
  match l with
  | [] => Raise StatisticsError
  | _ => Return (fsum l / INR (length l))
  end.

(** [statistics.stdev]: the sample standard deviation. *)
Definition stdev (l : list R) : result R :=
  if (length l <? 2)%nat then Raise StatisticsError
  else
    let mean := fsum l / INR (length l) in
    let ss := fsum (map (fun x => (x - mean) * (x - mean)) l) in
    Return (sqrt (ss / (INR (length l) - 1))).

(** [_clamp(value, low, high)], the same helper in every module. *)
Definition _clamp (value low high : R) : R := Rmax low (Rmin high value).

(** ** core/models.py *)

Record Signal : Type := mkSignal {
  symbol : string;
  price : R;
  momentum_20d : R;
  momentum_5d : R;
  trend_20d : R;
  volatility_20d : R;
  news_score : R;
  score : R;
  current_news_score : R;
  historical_news_score : R;
  ai_short_term_score : R;
  ai_long_term_score : R;
  ai_confidence : R;
  macro_score : R
}.

(** ** strategy/signals.py *)

Module Signals.

Fixpoint _daily_returns (closes : list R) : list R :=
  match closes with
  | previous :: rest =>
      match rest with
      | current :: _ =>
          if Rle_bool previous 0 then _daily_returns rest
          else (current / previous - 1) :: _daily_returns rest
      | [] => []
      end
  | [] => []
  end.

Definition _annualized_volatility (closes : list R) (window : nat) : result R :=
  let returns := _daily_returns (tail_slice (window + 1) closes) in
  if (length returns <? 2)%nat then Return 0
  else
    sd ← stdev returns;
    Return (sd * sqrt 252).

Definition compute_signal_with_ai
    (symbol : string) (price : R) (closes : list R) (news_score : R)
    (ai_short_term_score ai_long_term_score ai_confidence : R)
    (ai_short_term_weight ai_long_term_weight : R) : result (option Signal) :=
  if Rle_bool price 0 || (length closes <? 25)%nat then Return None
  else
    last ← neg_index closes 1;
    c21 ← neg_index closes 21;
    q20 ← truediv last c21;
    let momentum_20d := q20 - 1 in
    c6 ← neg_index closes 6;
    q5 ← truediv last c6;
    let momentum_5d := q5 - 1 in
    sma_20 ← fmean (tail_slice 20 closes);
    trend_20d ←
      (if Rlt_bool 0 sma_20
       then (q ← truediv last sma_20; Return (q - 1))
       else Return 0);
    volatility_20d ← _annualized_volatility closes 20;
    let score :=
      0.45 * momentum_20d
      + 0.20 * momentum_5d
      + 0.20 * trend_20d
      + 0.25 * news_score
      + ai_short_term_weight * ai_short_term_score
      + ai_long_term_weight * ai_long_term_score
      - 0.15 * Rmin volatility_20d 1 in
    Return (Some {|
      symbol := symbol;
      price := price;
      momentum_20d := momentum_20d;
      momentum_5d := momentum_5d;
      trend_20d := trend_20d;
      volatility_20d := volatility_20d;
      news_score := news_score;
      score := score;
      current_news_score := 0;
      historical_news_score := 0;
      ai_short_term_score := ai_short_term_score;
      ai_long_term_score := ai_long_term_score;
      ai_confidence := ai_confidence;
      macro_score := 0
    |}).

Definition compute_signal
    (symbol : string) (price : R) (closes : list R) (news_score : R)
    : result (option Signal) :=
  compute_signal_with_ai symbol price closes news_score 0 0 0 0 0.

(** The composite score as the specification words it: both AI terms are
    multiplied by the confidence. *)
Definition spec_composite_score (sig : Signal) (news_score : R)
    (ai_short ai_long confidence short_weight long_weight : R) : R :=
  0.45 * momentum_20d sig
  + 0.20 * momentum_5d sig
  + 0.20 * trend_20d sig
  + 0.25 * news_score
  + short_weight * ai_short * confidence
  + long_weight * ai_long * confidence
  - 0.15 * Rmin (volatility_20d sig) 1.

End Signals.

(** ** execution/broker.py: the price history handed to the signal code *)

Module SchwabBroker.

(** One entry of the payload's [candles]: [candle.get("close")], [None] when
    the key is absent or its value is not a number. *)
Record Candle : Type := mkCandle {
  candle_close : option R
}.

(** [get_history]: the closes that are numbers above 0, in order, and of
    those the last [days] when [days > 0]. *)
Definition get_history (candles : list Candle) (days : Z) : list R :=
  let closes :=
    fold_left
      (fun closes candle =>
         match candle_close candle with
         | Some close => if Rlt_bool 0 close then closes ++ [close] else closes
         | None => closes
         end)
      candles [] in
  if (0 <? days)%Z then tail_slice (Z.to_nat days) closes else closes.

End SchwabBroker.

(** ** Python runtime: ASCII string helpers *)

Definition is_upper (c : ascii) : bool :=
  (65 <=? nat_of_ascii c)%nat && (nat_of_ascii c <=? 90)%nat.

Definition is_lower (c : ascii) : bool :=
  (97 <=? nat_of_ascii c)%nat && (nat_of_ascii c <=? 122)%nat.

Definition is_space (c : ascii) : bool :=
  let n := nat_of_ascii c in
  (n =? 32)%nat || ((9 <=? n)%nat && (n <=? 13)%nat) || ((28 <=? n)%nat && (n <=? 31)%nat).

Definition lower_ascii (c : ascii) : ascii :=
  if is_upper c then ascii_of_nat (nat_of_ascii c + 32) else c.

Definition upper_ascii (c : ascii) : ascii :=
  if is_lower c then ascii_of_nat (nat_of_ascii c - 32) else c.

(** [s.lower()] and [s.upper()]. *)
Fixpoint lower (s : string) : string :=
  match s with
  | EmptyString => EmptyString
  | String c rest => String (lower_ascii c) (lower rest)
  end.

Fixpoint upper (s : string) : string :=
  match s with
  | EmptyString => EmptyString
  | String c rest => String (upper_ascii c) (upper rest)
  end.

Fixpoint lstrip (s : string) : string :=
  match s with
  | EmptyString => EmptyString
  | String c rest => if is_space c then lstrip rest else s
  end.

Definition string_rev (s : string) : string :=
  string_of_list_ascii (rev (list_ascii_of_string s)).

(** [s.strip()]. *)
Definition strip (s : string) : string :=
  string_rev (lstrip (string_rev (lstrip s))).

(** [s or default] on strings: the empty string is falsy. *)
Definition str_or (s default : string) : string :=
  match s with
  | EmptyString => default
  | _ => s
  end.

(** ** data/news.py *)

Module News.

Definition POSITIVE_WORDS : list string :=
  ["beats"; "beat"; "growth"; "surge"; "record"; "strong"; "upgrade";
   "bullish"; "breakthrough"; "expands"; "partnership"; "profit";
   "outperform"; "demand"; "upside"]%string.

Definition NEGATIVE_WORDS : list string :=
  ["miss"; "misses"; "weak"; "downgrade"; "lawsuit"; "probe"; "delay";
   "cuts"; "cut"; "layoffs"; "decline"; "bearish"; "risk"; "warning";
   "downside"]%string.

Record NewsItem : Type := mkNewsItem {
  title : string;
  description : string;
  source : string;
  link : string;
  published_at : option Z;
  source_type : string;
  author : string;
  content : string
}.

Definition is_word_char (c : ascii) : bool :=
  is_lower c || is_upper c || Ascii.eqb c "'"%char.

(** [re.findall(r"[a-zA-Z']+", s)]: the maximal runs of word characters,
    left to right; [cur] is the run being read. *)
Fixpoint findall_words (cur : string) (s : string) : list string :=
  match s with
  | EmptyString =>
      match cur with
      | EmptyString => []
      | _ => [cur]
      end
  | String c rest =>
      if is_word_char c then findall_words (cur +:+ String c EmptyString) rest
      else
        match cur with
        | EmptyString => findall_words EmptyString rest
        | _ => cur :: findall_words EmptyString rest
        end
  end.

Definition word_in (words : list string) (token : string) : bool :=
  existsb (String.eqb token) words.

Definition count_in (words : list string) (tokens : list string) : Z :=
  Z.of_nat (length (filter (fun token => word_in words token = true) tokens)).

Definition _headline_score (headline : string) : R :=
  let words := findall_words EmptyString (lower headline) in
  match words with
  | [] => 0
  | _ =>
      let positive := count_in POSITIVE_WORDS words in
      let negative := count_in NEGATIVE_WORDS words in
      if ((positive =? 0) && (negative =? 0))%Z then 0
      else IZR (positive - negative) / IZR (positive + negative)
  end.

Definition item_source_type (item : NewsItem) : string :=
  str_or (lower (strip (str_or (source_type item) "unknown"))) "unknown".

(** First loop: group the headline scores and count the items per source
    type. *)
Definition group_step (acc : gmap string (list R) * gmap string Z) (item : NewsItem)
    : gmap string (list R) * gmap string Z :=
  let '(scores_by_source, counts_by_source) := acc in
  let st := item_source_type item in
  let sc := _headline_score (title item) in
  (<[st := default [] (scores_by_source !! st) ++ [sc]]> scores_by_source,
   <[st := (default 0%Z (counts_by_source !! st) + 1)%Z]> counts_by_source).

Definition group_items (items : list NewsItem) : gmap string (list R) * gmap string Z :=
  fold_left group_step items (∅, ∅).

Definition source_multiplier (source_multipliers : option (gmap string R)) (st : string) : R :=
  match source_multipliers with
  | None => 1
  | Some m => Rmax 0.10 (Rmin (default 1 (m !! st)) 3)
  end.

(** Second loop, over [scores_by_source.items()]: per-source sentiment and the
    running [weighted_sum] and [total_weight]. *)
Definition blend_step (counts_by_source : gmap string Z)
    (source_multipliers : option (gmap string R))
    (acc : gmap string R * R * R) (entry : string * list R) : gmap string R * R * R :=
  let '(sentiment_by_source, weighted_sum, total_weight) := acc in
  let '(st, scores) := entry in
  let aggregate :=
    match scores with
    | [] => 0
    | _ => fsum scores / INR (length scores)
    end in
  let sentiment := Rmax (-1) (Rmin 1 aggregate) in
  let count := default 0%Z (counts_by_source !! st) in
  let weight := IZR count * source_multiplier source_multipliers st in
  (<[st := sentiment]> sentiment_by_source,
   weighted_sum + sentiment * weight,
   total_weight + weight).

Definition blend_sources (items : list NewsItem)
    (source_multipliers : option (gmap string R)) : gmap string R * R * R :=
  let '(scores_by_source, counts_by_source) := group_items items in
  fold_left (blend_step counts_by_source source_multipliers)
    (map_to_list scores_by_source) (∅, 0, 0).

(** The value of [total_weight] when the second loop ends. *)
Definition total_weight (items : list NewsItem)
    (source_multipliers : option (gmap string R)) : R :=
  snd (blend_sources items source_multipliers).

Definition source_weighted_sentiment (items : list NewsItem)
    (source_multipliers : option (gmap string R))
    : R * gmap string R * gmap string Z :=
  match items with
  | [] => (0, ∅, ∅)
  | _ =>
      let counts_by_source := snd (group_items items) in
      let '(sentiment_by_source, weighted_sum, total_weight) :=
        blend_sources items source_multipliers in
      if Rle_bool total_weight 0 then (0, sentiment_by_source, counts_by_source)
      else
        (Rmax (-1) (Rmin 1 (weighted_sum / total_weight)),
         sentiment_by_source, counts_by_source)
  end.

(** *** Vocabulary of the statements about this module *)

(** Every source type that has scores has a count of at least one. *)
Definition counted (acc : gmap string (list R) * gmap string Z) : Prop :=
  forall k l, acc.1 !! k = Some l ->
    exists n, acc.2 !! k = Some n /\ (1 <= n)%Z.

(** Counts never go below zero (an absent count reads as zero). *)
Definition counts_nonneg (acc : gmap string (list R) * gmap string Z) : Prop :=
  forall k n, acc.2 !! k = Some n -> (0 <= n)%Z.

(** *** The plain (unweighted) score of a list of headlines *)


(** The sum of the per-source counts. *)
Definition total_count (counts_by_source : gmap string Z) : Z :=
  fold_right Z.add 0%Z (map snd (map_to_list counts_by_source)).

End News.

(** ** Python runtime: insertion-ordered dicts *)

(** A dict whose iteration order is observed: the items in insertion
    order. [od_set] overwrites in place or appends, as [d[k] = v] does. *)
Abbreviation odict V := (list (string * V)).

Fixpoint od_get {V : Type} (d : odict V) (k : string) : option V :=
  match d with
  | [] => None
  | (k', v) :: rest => if String.eqb k' k then Some v else od_get rest k
  end.

Fixpoint od_set {V : Type} (d : odict V) (k : string) (v : V) : odict V :=
  match d with
  | [] => [(k, v)]
  | (k', v') :: rest =>
      if String.eqb k' k then (k', v) :: rest else (k', v') :: od_set rest k v
  end.

(** ** learning/ai_interpreter.py: LongTermMemoryStore *)

Module Memory.

(** One entry of [state]. A key that is absent, or whose value is not a
    number, reads as [None]: the code tests both with [isinstance]. *)
Record Row : Type := mkRow {
  row_score : option R;
  row_last_prediction : option R;
  row_last_price : option R;
  row_updated_at : option string
}.

Record LongTermMemoryStore : Type := mkStore {
  alpha : R;
  state : gmap string Row
}.

(** [not row]: the dict has no key at all. *)
Definition row_falsy (row : Row) : bool :=
  match row_score row, row_last_prediction row, row_last_price row, row_updated_at row with
  | None, None, None, None => true
  | _, _, _, _ => false
  end.

Definition get (self : LongTermMemoryStore) (symbol : string) : R :=
  match state self !! upper symbol with
  | None => 0
  | Some entry => if row_falsy entry then 0 else default 0 (row_score entry)
  end.

Definition update (self : LongTermMemoryStore) (symbol : string) (current_score : R)
    (now : string) : LongTermMemoryStore * R :=
  let key := upper symbol in
  let clamped := _clamp current_score (-1) 1 in
  let previous := get self key in
  let blended :=
    match state self !! key with
    | Some _ => alpha self * clamped + (1 - alpha self) * previous
    | None => clamped
    end in
  let blended := _clamp blended (-1) 1 in
  let row := default (mkRow None None None None) (state self !! key) in
  let row := mkRow (Some blended) (row_last_prediction row) (row_last_price row) (Some now) in
  (mkStore (alpha self) (<[key := row]> (state self)), blended).


Definition apply_price_feedback (self : LongTermMemoryStore) (symbol : string)
    (current_price strength : R) (now : string) : LongTermMemoryStore * R :=
  if Rle_bool current_price 0 then (self, 0)
  else
    let key := upper symbol in
    match state self !! key with
    | None => (self, 0)
    | Some row =>
        if row_falsy row then (self, 0)
        else
          match row_last_prediction row with
          | None => (self, 0)
          | Some prediction =>
              match row_last_price row with
              | None => (self, 0)
              | Some reference_price =>
                  if Rle_bool reference_price 0 then (self, 0)
                  else
                    let pred := _clamp prediction (-1) 1 in
                    let ref_price := reference_price in
                    let realized_return := current_price / ref_price - 1 in
                    let realized_signal := _clamp (realized_return / 0.125) (-1) 1 in
                    let agreement := pred * realized_signal in
                    let feedback_strength := _clamp strength 0 1 in
                    let adjustment := feedback_strength * agreement * Rabs pred in
                    let updated_score := _clamp (get self key + adjustment) (-1) 1 in
                    let row :=
                      mkRow (Some updated_score) (row_last_prediction row)
                            (Some current_price) (Some now) in
                    (mkStore (alpha self) (<[key := row]> (state self)), adjustment)
              end
          end
    end.

(** *** Vocabulary of the statements about this module *)

(** The adjustment computed on the feedback path. *)
Definition feedback_adjustment (prediction reference_price current_price strength : R) : R :=
  _clamp strength 0 1
  * (_clamp prediction (-1) 1
     * _clamp ((current_price / reference_price - 1) / 0.125) (-1) 1)
  * Rabs (_clamp prediction (-1) 1).

(** The exits that leave the store as it is. *)
Definition no_feedback_basis (self : LongTermMemoryStore) (symbol : string) : Prop :=
  match state self !! upper symbol with
  | None => True
  | Some row =>
      row_last_prediction row = None
      \/ match row_last_price row with
         | None => True
         | Some reference_price => reference_price <= 0
         end
  end.

(** The store of the examples: NVDA holds score 0.5 (or -1), prediction 0.8
    made at price 100. *)
Definition example_store (score : R) : LongTermMemoryStore :=
  mkStore 0.5 (<["NVDA"%string := mkRow (Some score) (Some 0.8) (Some 100) None]> ∅).


End Memory.

(** ** learning/decision_learning.py *)

Module DecisionLearning.

Definition FEATURE_KEYS : list string :=
  ["momentum_20d"; "momentum_5d"; "trend_20d"; "news_score"; "macro_score";
   "ai_short_term"; "ai_long_term"; "volatility_risk"]%string.

Definition DEFAULT_SOURCE_TYPES : list string :=
  ["news"; "sec_filing"; "earnings_transcript"; "social"; "analyst_rating";
   "unknown"]%string.


(** [ranked.sort(key=..., reverse=True)]: stable, largest value first. *)
Fixpoint insert_desc (item : string * R) (sorted : list (string * R)) : list (string * R) :=
  match sorted with
  | [] => [item]
  | x :: rest =>
      if Rlt_bool (snd x) (snd item) then item :: sorted
      else x :: insert_desc item rest
  end.

Definition sort_desc (items : list (string * R)) : list (string * R) :=
  fold_left (fun sorted item => insert_desc item sorted) items [].

Definition call_rationale (feature_profile : odict R) (max_items : nat) : list (string * R) :=
  let ranked :=
    filter (fun item => negb (String.eqb (fst item) "volatility_risk")
                        && negb (Rle_bool (snd item) 0) = true) feature_profile in
  firstn max_items (sort_desc ranked).

Definition failure_tags (feature_profile : odict R) (realized_return : R) : list string :=
  if Rle_bool 0 realized_return then []
  else
    let top := call_rationale feature_profile 2 in
    let drivers := map fst top in
    let has (d : string) := existsb (String.eqb d) drivers in
    let tags :=
      (if has "news_score" then ["news_overreaction"] else [])
      ++ (if has "momentum_20d" || has "momentum_5d" then ["momentum_reversal"] else [])
      ++ (if has "ai_short_term" || has "ai_long_term" then ["ai_thesis_miss"] else [])
      ++ (if has "macro_score" then ["macro_policy_miss"] else []) in
    let volatility := default 0 (od_get feature_profile "volatility_risk") in
    let tags := tags ++ (if Rlt_bool 0.09 volatility then ["high_volatility_regime"] else []) in
    match tags with
    | [] => ["general_prediction_error"]
    | _ => tags
    end%string.

(** A row of a source profile as it is received or read back: a field that
    is missing or not a number is [None]. *)
Record RawSourceRow : Type := mkRawSourceRow {
  raw_sentiment : option R;
  raw_count : option R;
  raw_multiplier : option R
}.

Record SourceRow : Type := mkSourceRow {
  sentiment : R;
  count : R;
  multiplier : R
}.

Definition to_raw (row : SourceRow) : RawSourceRow :=
  mkRawSourceRow (Some (sentiment row)) (Some (count row)) (Some (multiplier row)).

(** The [created_at] field of a ledger entry, by what the resolver can do
    with it: not a string, a string [fromisoformat] rejects, or an instant
    (microseconds since the epoch, UTC). *)
Inductive CreatedAt : Type :=
| NotAString
| Unparseable (raw : string)
| Instant (t : Z).

Inductive CallKind : Type := options_focus | equity_focus.

(** An entry of [open_calls]. It may have been read back from disk, so
    [entry_price] is [None] when missing or not a number; a
    [feature_profile] or [source_profile] that is not a dict reads as the
    empty one, and a profile value that is not a number as an absent key. *)
Record OpenCall : Type := mkOpenCall {
  call_id : string;
  call_symbol : string;
  call_created_at : CreatedAt;
  call_entry_price : option R;
  call_signal_score : R;
  call_feature_profile : odict R;
  call_source_profile : odict RawSourceRow;
  call_rationale_items : list (string * R);
  call_kind : CallKind
}.

Record Observation : Type := mkObservation {
  obs_timestamp : Z;
  obs_price : R;
  obs_source_profile : odict SourceRow
}.

Inductive Outcome : Type := neutral | bad_call | good_call.

Record OpenedEvent : Type := mkOpenedEvent {
  opened_timestamp : Z;
  opened_symbol : string;
  opened_call_id : string;
  opened_signal_score : R;
  opened_entry_price : R;
  opened_why_call_made : list (string * R);
  opened_feature_profile : odict R;
  opened_feature_penalties : gmap string R;
  opened_source_profile : odict SourceRow;
  opened_source_bias : gmap string R
}.

Record ResolvedEvent : Type := mkResolvedEvent {
  resolved_timestamp : Z;
  resolved_symbol : string;
  resolved_call_id : string;
  resolved_opened_at : Z;
  resolved_evaluation_hours : R;
  resolved_entry_price : R;
  resolved_price : R;
  resolved_realized_return : R;
  resolved_outcome : Outcome;
  resolved_why_call_made : list (string * R);
  resolved_why_bad : list string;
  resolved_penalty_update : gmap string R;
  resolved_source_priority_update : gmap string R;
  resolved_feature_profile : odict R;
  resolved_source_profile : odict SourceRow;
  resolved_feature_penalties_after : gmap string R;
  resolved_source_bias_after : gmap string R
}.

Inductive Event : Type :=
| decision_call_opened (e : OpenedEvent)
| decision_call_resolved (e : ResolvedEvent).

(** The store: the settings fixed by [__init__], the four state dicts, and
    the decision journal (oldest event first). *)
Record DecisionLearningStore : Type := mkStore {
  evaluation_horizon : Z;
  bad_call_return_threshold : R;
  good_call_return_threshold : R;
  learning_rate : R;
  max_feature_penalty : R;
  enable_source_priority_learning : bool;
  source_learning_rate : R;
  max_source_bias : R;
  market_reaction_strength : R;
  feature_penalties : gmap string R;
  source_bias : gmap string R;
  open_calls : gmap string OpenCall;
  market_observations : gmap string Observation;
  journal : list Event
}.

Definition with_state (self : DecisionLearningStore)
    (penalties : gmap string R) (bias : gmap string R)
    (calls : gmap string OpenCall) (events : list Event) : DecisionLearningStore :=
  mkStore (evaluation_horizon self) (bad_call_return_threshold self)
    (good_call_return_threshold self) (learning_rate self) (max_feature_penalty self)
    (enable_source_priority_learning self) (source_learning_rate self)
    (max_source_bias self) (market_reaction_strength self)
    penalties bias calls (market_observations self) events.

Definition microseconds_per_hour : Z := 3600000000.

(** [__init__] when no state file exists. *)
Definition new_store (evaluation_horizon_hours : Z)
    (bad_call_return_threshold good_call_return_threshold : R)
    (learning_rate max_feature_penalty : R)
    (enable_source_priority_learning : bool)
    (source_learning_rate max_source_bias market_reaction_strength : R)
    : DecisionLearningStore :=
  mkStore (Z.max 1 evaluation_horizon_hours * microseconds_per_hour)
    bad_call_return_threshold good_call_return_threshold
    (_clamp learning_rate 0 1) (Rmax 0 max_feature_penalty)
    enable_source_priority_learning
    (_clamp source_learning_rate 0 1) (Rmax 0 max_source_bias)
    (_clamp market_reaction_strength 0 1)
    (list_to_map (map (fun key => (key, 0)) FEATURE_KEYS))
    (list_to_map (map (fun key => (key, 0)) DEFAULT_SOURCE_TYPES))
    ∅ ∅ [].

Definition adjustment_for (self : DecisionLearningStore) (feature_profile : odict R) : R :=
  fold_left
    (fun adjustment item =>
       let '(key, penalty) := item in
       let value := default 0 (od_get feature_profile key) in
       let exposure := Rmax 0 value in
       adjustment - penalty * exposure)
    (map_to_list (feature_penalties self)) 0.

(** The adjustment as the specification words it: minus the sum, over the
    store's penalty keys, of penalty[k] * max(0, profile[k]). *)
Definition spec_adjustment (self : DecisionLearningStore) (feature_profile : odict R) : R :=
  - fsum (map (fun item => snd item * Rmax 0 (default 0 (od_get feature_profile (fst item))))
            (map_to_list (feature_penalties self))).


Definition _normalize_source_profile (source_profile : odict RawSourceRow) : odict SourceRow :=
  fold_left
    (fun normalized item =>
       let '(raw_key, raw_row) := item in
       let key := str_or (lower (strip raw_key)) "unknown" in
       let sentiment := default 0 (raw_sentiment raw_row) in
       let count := default 0 (raw_count raw_row) in
       let multiplier := default 1 (raw_multiplier raw_row) in
       if Rle_bool count 0 then normalized
       else
         od_set normalized key
           (mkSourceRow (_clamp sentiment (-1) 1) (Rmax 0 count) (_clamp multiplier 0.1 3)))
    source_profile [].

Definition source_bias_step (self : DecisionLearningStore)
    (realized_signal channel_weight total_count : R)
    (acc : gmap string R * gmap string R) (item : string * SourceRow)
    : gmap string R * gmap string R :=
  let '(bias, changed) := acc in
  let '(source_type, row) := item in
  let sentiment := _clamp (sentiment row) (-1) 1 in
  let count := Rmax 0 (count row) in
  if Rle_bool count 0 || Req_bool sentiment 0 then acc
  else
    let count_share := count / total_count in
    let influence := Rmin 1 (Rabs sentiment) * count_share in
    let delta :=
      source_learning_rate self * channel_weight * realized_signal * sentiment * influence in
    if Req_bool delta 0 then acc
    else
      let before := default 0 (bias !! source_type) in
      let after := _clamp (before + delta) (- max_source_bias self) (max_source_bias self) in
      if Req_bool after before then acc
      else (<[source_type := after]> bias, <[source_type := after - before]> changed).

(** Returns the new [source_bias] and the [changed] summary. *)
Definition _update_source_bias (self : DecisionLearningStore)
    (source_profile : odict SourceRow) (realized_return channel_weight : R)
    : gmap string R * gmap string R :=
  if negb (enable_source_priority_learning self) then (source_bias self, ∅)
  else
    match source_profile with
    | [] => (source_bias self, ∅)
    | _ =>
        let realized_signal := _clamp (realized_return / 0.05) (-2) 2 in
        if Req_bool realized_signal 0 then (source_bias self, ∅)
        else
          let total_count := fsum (map (fun item => Rmax 0 (count (snd item))) source_profile) in
          if Rle_bool total_count 0 then (source_bias self, ∅)
          else
            fold_left (source_bias_step self realized_signal channel_weight total_count)
              source_profile (source_bias self, ∅)
    end.

Definition penalty_step (self : DecisionLearningStore) (feature_profile : odict R)
    (magnitude : R) (outcome : Outcome)
    (acc : gmap string R * gmap string R) (key : string)
    : gmap string R * gmap string R :=
  let '(penalties, changed) := acc in
  let value := default 0 (od_get feature_profile key) in
  let exposure := Rmax 0 value in
  if Req_bool exposure 0 then acc
  else
    let before := default 0 (penalties !! key) in
    let after :=
      match outcome with
      | bad_call =>
          _clamp (before + learning_rate self * magnitude * exposure)
                 0 (max_feature_penalty self)
      | good_call =>
          _clamp (before - 0.5 * learning_rate self * magnitude * exposure)
                 0 (max_feature_penalty self)
      | neutral => before
      end in
    if Req_bool after before then acc
    else (<[key := after]> penalties, <[key := after - before]> changed).

(** Returns the new [feature_penalties] and the [changed] summary. *)
Definition _update_penalties (self : DecisionLearningStore) (feature_profile : odict R)
    (realized_return : R) (outcome : Outcome) : gmap string R * gmap string R :=
  let magnitude := Rmin (Rabs realized_return / 0.05) 2 in
  fold_left (penalty_step self feature_profile magnitude outcome)
    FEATURE_KEYS (feature_penalties self, ∅).

Definition maybe_record_call (self : DecisionLearningStore) (signal : Signal)
    (feature_profile : odict R) (source_profile : odict RawSourceRow)
    (entry_threshold option_threshold : R) (now : Z) (uuid : string)
    : DecisionLearningStore :=
  if Rlt_bool (score signal) (Rmin entry_threshold option_threshold) then self
  else
    let symbol := upper (symbol signal) in
    match open_calls self !! symbol with
    | Some existing => self
    | None =>
        let created_at := now in
        let reason := call_rationale feature_profile 3 in
        let normalized_source_profile := _normalize_source_profile source_profile in
        let call :=
          mkOpenCall uuid symbol (Instant created_at) (Some (price signal)) (score signal)
            feature_profile
            (map (fun item => (fst item, to_raw (snd item))) normalized_source_profile)
            reason
            (if Rle_bool option_threshold (score signal) then options_focus
             else equity_focus) in
        let event :=
          mkOpenedEvent created_at symbol uuid (score signal) (price signal) reason
            feature_profile (feature_penalties self) normalized_source_profile
            (source_bias self) in
        with_state self (feature_penalties self) (source_bias self)
          (<[symbol := call]> (open_calls self))
          (journal self ++ [decision_call_opened event])
    end.

(** [self.open_calls.pop(key, None); self._save(); return None]. *)
Definition discard_call (self : DecisionLearningStore) (key : string)
    : DecisionLearningStore * option ResolvedEvent :=
  (with_state self (feature_penalties self) (source_bias self)
     (delete key (open_calls self)) (journal self), None).

Definition maybe_resolve_call (self : DecisionLearningStore) (symbol : string)
    (current_price : R) (now : Z) : DecisionLearningStore * option ResolvedEvent :=
  if Rle_bool current_price 0 then (self, None)
  else
    let key := upper symbol in
    match open_calls self !! key with
    | None => (self, None)
    | Some call =>
        match call_created_at call with
        | NotAString => discard_call self key
        | Unparseable _ => discard_call self key
        | Instant created_at =>
            if (now - created_at <? evaluation_horizon self)%Z then (self, None)
            else
              match call_entry_price call with
              | None => discard_call self key
              | Some entry_price =>
                  if Rle_bool entry_price 0 then discard_call self key
                  else
                    let realized_return := current_price / entry_price - 1 in
                    let feature_profile := call_feature_profile call in
                    let source_profile :=
                      _normalize_source_profile (call_source_profile call) in
                    let outcome :=
                      if Rle_bool realized_return (bad_call_return_threshold self)
                      then bad_call
                      else if Rle_bool (good_call_return_threshold self) realized_return
                      then good_call
                      else neutral in
                    let '(penalties, update_summary) :=
                      _update_penalties self feature_profile realized_return outcome in
                    let '(bias, source_update_summary) :=
                      _update_source_bias self source_profile realized_return 1 in
                    let event :=
                      mkResolvedEvent now key (call_id call) created_at
                        (IZR (now - created_at) / IZR microseconds_per_hour)
                        entry_price current_price realized_return outcome
                        (call_rationale_items call)
                        (match outcome with
                         | bad_call => failure_tags feature_profile realized_return
                         | _ => []
                         end)
                        update_summary source_update_summary
                        feature_profile source_profile penalties bias in
                    (with_state self penalties bias (delete key (open_calls self))
                       (journal self ++ [decision_call_resolved event]),
                     Some event)
              end
        end
    end.

(** *** Vocabulary of the statements about this module *)

(** [feature_penalties.get(key, 0.0)]. *)
Definition penalty_of (penalties : gmap string R) (key : string) : R :=
  default 0 (penalties !! key).

(** [max(0.0, feature_profile.get(key, 0.0))]. *)
Definition exposure_of (feature_profile : odict R) (key : string) : R :=
  Rmax 0 (default 0 (od_get feature_profile key)).

Definition penalties_in_bounds (self : DecisionLearningStore) : Prop :=
  forall key p, feature_penalties self !! key = Some p -> 0 <= p <= max_feature_penalty self.

(** What one pass of the penalty loop leaves at its key, given the value
    [before] it found there. *)
Definition step_value (self : DecisionLearningStore) (feature_profile : odict R)
    (magnitude : R) (outcome : Outcome) (before : R) (key : string) : R :=
  if Req_bool (exposure_of feature_profile key) 0 then before
  else
    match outcome with
    | bad_call =>
        _clamp (before + learning_rate self * magnitude * exposure_of feature_profile key)
               0 (max_feature_penalty self)
    | good_call =>
        _clamp (before - 0.5 * learning_rate self * magnitude * exposure_of feature_profile key)
               0 (max_feature_penalty self)
    | neutral => before
    end.

(** The outcome label of a realized return. *)
Definition outcome_of (self : DecisionLearningStore) (realized_return : R) : Outcome :=
  if Rle_bool realized_return (bad_call_return_threshold self) then bad_call
  else if Rle_bool (good_call_return_threshold self) realized_return then good_call
  else neutral.

(** The conditions under which [maybe_resolve_call] resolves the call. *)
Definition resolvable (self : DecisionLearningStore) (symbol : string)
    (current_price : R) (now : Z) : Prop :=
  0 < current_price
  /\ exists call created_at entry_price,
      open_calls self !! upper symbol = Some call
      /\ call_created_at call = Instant created_at
      /\ (evaluation_horizon self <= now - created_at)%Z
      /\ call_entry_price call = Some entry_price
      /\ 0 < entry_price.

(** Outside those conditions nothing is resolved: the result is [None], and
    penalties, biases and journal are as before; the ledger entry is dropped
    when its timestamp cannot be read or, once the horizon has passed, its
    entry price is missing or not positive. *)
Definition discards (self : DecisionLearningStore) (symbol : string)
    (current_price : R) (now : Z) : Prop :=
  0 < current_price
  /\ exists call,
      open_calls self !! upper symbol = Some call
      /\ match call_created_at call with
         | NotAString => True
         | Unparseable _ => True
         | Instant created_at =>
             (evaluation_horizon self <= now - created_at)%Z
             /\ match call_entry_price call with
                | None => True
                | Some entry_price => entry_price <= 0
                end
         end.

(** Every ledger entry is filed under its own symbol. *)
Definition ledger_keyed (self : DecisionLearningStore) : Prop :=
  forall key call, open_calls self !! key = Some call -> call_symbol call = key.

(** The open calls of a symbol. *)
Definition calls_for (self : DecisionLearningStore) (sym : string) : list OpenCall :=
  List.filter (fun call => String.eqb (call_symbol call) sym)
    (map snd (map_to_list (open_calls self))).

(** *** Example data *)

(** A store as [__init__] makes it: 24 h horizon, thresholds -3% and +3%,
    learning rate 0.2, penalty cap 0.5. *)
Definition example_config : DecisionLearningStore :=
  new_store 24 (-0.03) 0.03 0.2 0.5 true 0.18 0.8 0.35.

Definition example_profile : odict R :=
  [("momentum_20d", 0.1); ("news_score", 0.05)]%string.

(** An NVDA call with score 0.2, opened with the given timestamp and entry
    price fields. *)
Definition example_call (created_at : CreatedAt) (entry_price : option R) : OpenCall :=
  mkOpenCall "call-1" "NVDA" created_at entry_price 0.2 example_profile []
    example_profile equity_focus.

(** [example_config] with the given penalties and one open call. *)
Definition example_ledger (penalties : gmap string R) (call : OpenCall)
    : DecisionLearningStore :=
  with_state example_config penalties (source_bias example_config)
    (<["NVDA"%string := call]> ∅) [].

Definition one_day : Z := 24 * microseconds_per_hour.

Definition example_signal (symbol : string) (score : R) : Signal :=
  mkSignal symbol 100 0.2 0.1 0.05 0.3 0.2 score 0 0 0 0 0 0.







End DecisionLearning.

(** ** Python runtime: slicing and rounding *)

(** [l[:n]] for an int [n]: a negative [n] drops that many items from the
    end. *)
Definition slice_to {A : Type} (n : Z) (l : list A) : list A :=
  if (0 <=? n)%Z then firstn (Z.to_nat n) l
  else firstn (length l - Z.to_nat (- n)) l.

(** [round(x, 2)]: to the nearest hundredth, ties to the even one. *)
Definition round2 (x : R) : R :=
  let scaled := x * 100 in
  let below := Zfloor scaled in
  let rest := scaled - IZR below in
  let nearest :=
    if Rlt_bool rest (1 / 2) then below
    else if Rlt_bool (1 / 2) rest then (below + 1)%Z
    else if Z.even below then below else (below + 1)%Z in
  IZR nearest / 100.

(** [int(x // y)] on floats: raises on a zero divisor. *)
Definition floordiv (x y : R) : result Z :=
  if Req_bool y 0 then Raise ZeroDivisionError else Return (Zfloor (x / y)).

(** ** strategy/options.py *)

Module Options.

Record OptionContract : Type := mkOptionContract {
  contract_symbol : string;
  underlying : string;
  strike : R;
  dte : Z;
  delta : option R;
  bid : R;
  ask : R;
  mark : R;
  volume : Z;
  open_interest : Z;
  premium_per_contract : R
}.

(** [choose_bullish_call] on the contracts [extract_call_contracts] reads
    from the chain document: the first contract of least quality value,
    which is what the stable ascending sort puts at index 0. *)
Definition contract_quality (target_delta : R) (contract : OptionContract) : option R :=
  let abs_delta :=
    match delta contract with
    | Some d => Rabs d
    | None => target_delta
    end in
  let in_band :=
    match delta contract with
    | Some d => negb (Rlt_bool (Rabs d) 0.20 || Rlt_bool 0.70 (Rabs d))
    | None => true
    end in
  if in_band then
    let spread :=
      if Rlt_bool 0 (ask contract) && Rlt_bool 0 (bid contract)
      then ask contract - bid contract else ask contract in
    let liquidity_bonus :=
      0.0005 * IZR (open_interest contract) + 0.0002 * IZR (volume contract) in
    Some (Rabs (abs_delta - target_delta) + 0.03 * Rmax spread 0 - liquidity_bonus)
  else None.

Definition choose_step (max_premium_dollars : R) (min_dte max_dte : Z) (target_delta : R)
    (best : option (R * OptionContract)) (contract : OptionContract)
    : option (R * OptionContract) :=
  if ((dte contract <? min_dte) || (max_dte <? dte contract))%Z then best
  else if Rlt_bool max_premium_dollars (premium_per_contract contract) then best
  else
    match contract_quality target_delta contract with
    | None => best
    | Some quality =>
        match best with
        | None => Some (quality, contract)
        | Some (least, _) =>
            if Rlt_bool quality least then Some (quality, contract) else best
        end
    end.

Definition choose_bullish_call (candidates : list OptionContract)
    (max_premium_dollars : R) (min_dte max_dte : Z) (target_delta : R)
    : option OptionContract :=
  option_map snd
    (fold_left (choose_step max_premium_dollars min_dte max_dte target_delta)
       candidates None).

Definition is_alpha (c : ascii) : bool := is_upper c || is_lower c.

Fixpoint before_space (s : string) : string :=
  match s with
  | EmptyString => EmptyString
  | String c rest => if Ascii.eqb c " "%char then EmptyString else String c (before_space rest)
  end.

Fixpoint leading_letters (s : string) : string :=
  match s with
  | EmptyString => EmptyString
  | String c rest => if is_alpha c then String c (leading_letters rest) else EmptyString
  end.

Definition option_underlying (option_symbol : string) : string :=
  let clean := upper (strip option_symbol) in
  let head := strip (before_space clean) in
  str_or (leading_letters head) head.



End Options.

(** ** app/engine.py: order construction *)

Module Engine.

Import Options.

Inductive AssetType : Type := EQUITY | OPTION.

Inductive Instruction : Type := SELL | BUY | SELL_TO_CLOSE | BUY_TO_OPEN.

(** The [reason] strings, with the formatted numbers kept as numbers. *)
Inductive Reason : Type :=
| llm_forced_exit
| rebalance_down
| signal_exit
| signal_entry (score : R)
| underlying_signal_exit
| option_overlay (symbol : string) (score : R) (dte : Z) (delta : option R).

Record TradeOrder : Type := mkTradeOrder {
  asset_type : AssetType;
  order_symbol : string;
  instruction : Instruction;
  quantity : Z;
  limit_price : option R;
  reason : Reason
}.

Record PortfolioSnapshot : Type := mkPortfolioSnapshot {
  cash : R;
  equity_positions : odict Z;
  option_positions : odict Z
}.

Record LLMDecisionPlan : Type := mkLLMDecisionPlan {
  equity_buy_symbols : list string;
  option_buy_symbols : list string;
  exit_symbols : list string;
  confidence : R
}.

(** The fields of [BotConfig] that order construction reads. *)
Record BotConfig : Type := mkBotConfig {
  starting_capital : R;
  max_equity_positions : Z;
  equity_capital_fraction : R;
  max_position_fraction : R;
  min_signal_to_enter : R;
  signal_to_exit : R;
  enable_options : bool;
  option_capital_fraction : R;
  option_signal_threshold : R;
  option_min_dte : Z;
  option_max_dte : Z;
  option_target_delta : R;
  max_option_contracts : Z;
  min_order_notional : R;
  max_orders_per_cycle : Z;
  enable_llm_first_decisioning : bool;
  llm_first_min_confidence : R;
  llm_first_require_signals_for_entries : bool;
  llm_support_min_signal_score : R
}.

(** The broker calls order construction makes. [None] stands for a raised
    exception (and, for the last price, also for a [None] answer): the
    callers treat them alike. The option chain is given as the contracts
    [extract_call_contracts] reads from it. *)
Record Broker : Type := mkBroker {
  get_last_price : string -> option R;
  get_option_chain : string -> option (list OptionContract)
}.

(** What an order was built from. *)
Inductive Source : Type :=
| FromPosition
| FromSignal (signal : Signal)
| FromContract (signal : Signal) (contract : OptionContract).

(** An appended order, together with two facts about the moment it was
    appended that the order itself does not carry: what it was built from,
    and the running cash estimate ([estimated_cash] in the equity pass,
    [cash_left] in the option pass). The order list is [map em_order]. *)
Record Emission : Type := mkEmission {
  em_order : TradeOrder;
  em_source : Source;
  em_cash : R
}.

Definition mem (s : string) (l : list string) : bool := existsb (String.eqb s) l.

(** [{signal.symbol: signal for signal in signals}]. *)
Definition signals_by_symbol_of (signals : list Signal) : gmap string Signal :=
  fold_left (fun m signal => <[symbol signal := signal]> m) signals ∅.

Definition _signal_supports_llm_entry (config : BotConfig) (signal : Signal) : bool :=
  if negb (llm_first_require_signals_for_entries config) then true
  else Rle_bool (llm_support_min_signal_score config) (score signal).

Definition _estimate_account_equity (config : BotConfig) (broker : Broker)
    (snapshot : PortfolioSnapshot) (signals_by_symbol : gmap string Signal) : R :=
  let equity_value :=
    fold_left
      (fun equity_value item =>
         let '(symbol, quantity) := item in
         if (quantity =? 0)%Z then equity_value
         else
           match signals_by_symbol !! symbol with
           | Some signal => equity_value + IZR quantity * price signal
           | None =>
               match get_last_price broker symbol with
               | Some latest => equity_value + IZR quantity * latest
               | None => equity_value
               end
           end)
      (equity_positions snapshot) (cash snapshot) in
  Rmax equity_value (starting_capital config).

(** The candidate list built from [candidate_signals_override]: first
    occurrence of each upper-cased symbol that is a key of
    [signals_by_symbol]. *)
Fixpoint dedupe_candidates (signals_by_symbol : gmap string Signal) (seen : list string)
    (override : list Signal) : list Signal :=
  match override with
  | [] => []
  | signal :: rest =>
      let sym := upper (symbol signal) in
      if mem sym seen then dedupe_candidates signals_by_symbol seen rest
      else
        match signals_by_symbol !! sym with
        | None => dedupe_candidates signals_by_symbol seen rest
        | Some _ => signal :: dedupe_candidates signals_by_symbol (sym :: seen) rest
        end
  end.

(** The loop that fills [target_qty]. *)
Fixpoint target_quantities (per_position_budget : R) (candidates : list Signal)
    (target_qty : gmap string Z) : result (gmap string Z) :=
  match candidates with
  | [] => Return target_qty
  | signal :: rest =>
      qty ← floordiv per_position_budget (price signal);
      target_quantities per_position_budget rest
        (<[symbol signal := Z.max 0 qty]> target_qty)
  end.

(** One pass of the exit loop over [snapshot.equity_positions.items()]. *)
Definition exit_step (config : BotConfig) (signals_by_symbol : gmap string Signal)
    (forced_exits : list string) (target_qty : gmap string Z)
    (acc : list Emission * R) (item : string * Z) : result (list Emission * R) :=
  let '(orders, estimated_cash) := acc in
  let '(sym, qty) := item in
  if (qty <=? 0)%Z then Return acc
  else if mem (upper sym) forced_exits then
    let orders :=
      orders ++ [mkEmission (mkTradeOrder EQUITY sym SELL qty None llm_forced_exit)
                   FromPosition estimated_cash] in
    match signals_by_symbol !! sym with
    | Some signal => Return (orders, estimated_cash + IZR qty * price signal)
    | None => Return (orders, estimated_cash)
    end
  else
    let signal := signals_by_symbol !! sym in
    match target_qty !! sym with
    | Some desired =>
        if (desired <? qty)%Z then
          let to_sell := (qty - desired)%Z in
          if (0 <? to_sell)%Z then
            let orders :=
              orders ++ [mkEmission (mkTradeOrder EQUITY sym SELL to_sell None rebalance_down)
                           FromPosition estimated_cash] in
            match signal with
            | Some signal => Return (orders, estimated_cash + IZR to_sell * price signal)
            | None => Raise AttributeError
            end
          else Return acc
        else Return acc
    | None =>
        match signal with
        | None =>
            Return (orders ++ [mkEmission (mkTradeOrder EQUITY sym SELL qty None signal_exit)
                                 FromPosition estimated_cash],
                    estimated_cash)
        | Some signal =>
            if Rle_bool (score signal) (signal_to_exit config) then
              Return (orders ++ [mkEmission (mkTradeOrder EQUITY sym SELL qty None signal_exit)
                                   FromPosition estimated_cash],
                      estimated_cash + IZR qty * price signal)
            else Return acc
        end
    end.

Fixpoint exit_loop (config : BotConfig) (signals_by_symbol : gmap string Signal)
    (forced_exits : list string) (target_qty : gmap string Z)
    (positions : odict Z) (acc : list Emission * R) : result (list Emission * R) :=
  match positions with
  | [] => Return acc
  | item :: rest =>
      acc ← exit_step config signals_by_symbol forced_exits target_qty acc item;
      exit_loop config signals_by_symbol forced_exits target_qty rest acc
  end.

(** One pass of the entry loop over the candidates. *)
Definition entry_step (config : BotConfig) (snapshot : PortfolioSnapshot)
    (target_qty : gmap string Z) (acc : list Emission * R) (signal : Signal)
    : list Emission * R :=
  let '(orders, estimated_cash) := acc in
  let desired := default 0%Z (target_qty !! symbol signal) in
  let held := default 0%Z (od_get (equity_positions snapshot) (symbol signal)) in
  let to_buy := (desired - held)%Z in
  if (to_buy <=? 0)%Z then acc
  else
    let notional := IZR to_buy * price signal in
    if Rlt_bool notional (min_order_notional config) then acc
    else if Rlt_bool estimated_cash notional then acc
    else
      (orders ++ [mkEmission
                    (mkTradeOrder EQUITY (symbol signal) BUY to_buy
                       (Some (round2 (price signal * 1.0025)))
                       (signal_entry (score signal)))
                    (FromSignal signal) estimated_cash],
       estimated_cash - notional).

(** Returns the appended orders and the final [estimated_cash]. *)
Definition _build_equity_orders (config : BotConfig) (snapshot : PortfolioSnapshot)
    (signals : list Signal) (signals_by_symbol : gmap string Signal) (account_equity : R)
    (candidate_signals_override : option (list Signal))
    (forced_exit_symbols : list string) : result (list Emission * R) :=
  let candidate_signals :=
    match candidate_signals_override with
    | None =>
        List.filter (fun signal => Rle_bool (min_signal_to_enter config) (score signal)) signals
    | Some override => dedupe_candidates signals_by_symbol [] override
    end in
  let candidate_signals := slice_to (max_equity_positions config) candidate_signals in
  let estimated_cash := cash snapshot in
  let forced_exits := map upper forced_exit_symbols in
  target_qty ←
    match candidate_signals with
    | [] => Return ∅
    | _ =>
        let equity_budget := account_equity * equity_capital_fraction config in
        let per_position_budget :=
          Rmin (account_equity * max_position_fraction config)
               (equity_budget / INR (length candidate_signals)) in
        target_quantities per_position_budget candidate_signals ∅
    end;
  exits ← exit_loop config signals_by_symbol forced_exits target_qty
            (equity_positions snapshot) ([], estimated_cash);
  Return (fold_left (entry_step config snapshot target_qty) candidate_signals exits).

(** The close loop over [snapshot.option_positions.items()]. *)
Definition close_step (config : BotConfig) (signals_by_symbol : gmap string Signal)
    (forced_exits : list string) (estimated_cash : R)
    (orders : list Emission) (item : string * Z) : list Emission :=
  let '(option_symbol, qty) := item in
  if (qty <=? 0)%Z then orders
  else
    let underlying := option_underlying option_symbol in
    let signal := signals_by_symbol !! underlying in
    if mem (upper underlying) forced_exits then
      orders ++ [mkEmission
                   (mkTradeOrder OPTION option_symbol SELL_TO_CLOSE qty None llm_forced_exit)
                   FromPosition estimated_cash]
    else
      match signal with
      | Some signal =>
          if Rle_bool (score signal) (signal_to_exit config) then
            orders ++ [mkEmission
                         (mkTradeOrder OPTION option_symbol SELL_TO_CLOSE qty None
                            underlying_signal_exit)
                         FromPosition estimated_cash]
          else orders
      | None => orders
      end.

(** The state of the open loop. *)
Record OpenState : Type := mkOpenState {
  os_orders : list Emission;
  remaining_slots : Z;
  budget_left : R;
  cash_left : R;
  option_underlyings_held : list string
}.

(** The open loop over the candidates; a [break] returns the state. *)
Fixpoint open_loop (config : BotConfig) (broker : Broker) (forced_exits : list string)
    (overridden : bool) (candidates : list Signal) (st : OpenState) : OpenState :=
  match candidates with
  | [] => st
  | signal :: rest =>
      let continue := open_loop config broker forced_exits overridden rest in
      if (remaining_slots st <=? 0)%Z then st
      else if mem (upper (symbol signal)) forced_exits then continue st
      else if negb overridden && Rlt_bool (score signal) (option_signal_threshold config)
      then st
      else if mem (symbol signal) (option_underlyings_held st) then continue st
      else
        let per_contract_budget := Rmin (budget_left st) (cash_left st) in
        if Rlt_bool per_contract_budget (min_order_notional config) then st
        else
          match get_option_chain broker (symbol signal) with
          | None => continue st
          | Some chain =>
              match choose_bullish_call chain per_contract_budget
                      (option_min_dte config) (option_max_dte config)
                      (option_target_delta config) with
              | None => continue st
              | Some contract =>
                  if Rlt_bool per_contract_budget (premium_per_contract contract)
                  then continue st
                  else
                    let limit_basis :=
                      if Rlt_bool 0 (ask contract) then ask contract else mark contract in
                    let limit_price :=
                      if Rlt_bool 0 limit_basis then Some (round2 limit_basis) else None in
                    continue
                      (mkOpenState
                         (os_orders st ++
                          [mkEmission
                             (mkTradeOrder OPTION (contract_symbol contract) BUY_TO_OPEN 1
                                limit_price
                                (option_overlay (symbol signal) (score signal)
                                   (dte contract) (delta contract)))
                             (FromContract signal contract) (cash_left st)])
                         (remaining_slots st - 1)
                         (budget_left st - premium_per_contract contract)
                         (cash_left st - premium_per_contract contract)
                         (symbol signal :: option_underlyings_held st))
              end
          end
  end.

Definition _build_option_orders (config : BotConfig) (broker : Broker)
    (snapshot : PortfolioSnapshot) (signals : list Signal)
    (signals_by_symbol : gmap string Signal) (account_equity estimated_cash : R)
    (candidate_signals_override : option (list Signal))
    (forced_exit_symbols : list string) : list Emission :=
  if negb (enable_options config) || (max_option_contracts config <=? 0)%Z then []
  else
    let forced_exits := map upper forced_exit_symbols in
    let orders :=
      fold_left (close_step config signals_by_symbol forced_exits estimated_cash)
        (option_positions snapshot) [] in
    let open_contracts :=
      fold_right Z.add 0%Z (map (fun item => Z.max 0 (snd item)) (option_positions snapshot)) in
    let remaining_slots := (max_option_contracts config - open_contracts)%Z in
    if (remaining_slots <=? 0)%Z then orders
    else
      let max_option_budget := account_equity * option_capital_fraction config in
      let max_option_budget := Rmin max_option_budget estimated_cash in
      if Rlt_bool max_option_budget (min_order_notional config) then orders
      else
        let option_underlyings_held :=
          map (fun item => option_underlying (fst item))
            (List.filter (fun item => (0 <? snd item)%Z) (option_positions snapshot)) in
        let candidate_signals :=
          match candidate_signals_override with
          | None => signals
          | Some override => dedupe_candidates signals_by_symbol [] override
          end in
        os_orders
          (open_loop config broker forced_exits
             (match candidate_signals_override with Some _ => true | None => false end)
             candidate_signals
             (mkOpenState orders remaining_slots max_option_budget estimated_cash
                option_underlyings_held)).

(** [combined[: max_orders_per_cycle]] when the list is longer than that. *)
Definition truncate (config : BotConfig) (combined : list Emission) : list Emission :=
  if (max_orders_per_cycle config <? Z.of_nat (length combined))%Z
  then slice_to (max_orders_per_cycle config) combined
  else combined.

Definition plan_candidates (config : BotConfig) (signals_by_symbol : gmap string Signal)
    (symbols : list string) : list Signal :=
  omap (fun symbol =>
          match signals_by_symbol !! symbol with
          | None => None
          | Some signal =>
              if _signal_supports_llm_entry config signal then Some signal else None
          end)
       symbols.

Definition _build_orders_from_llm_plan (config : BotConfig) (broker : Broker)
    (snapshot : PortfolioSnapshot) (signals : list Signal)
    (signals_by_symbol : gmap string Signal) (account_equity : R)
    (llm_plan : LLMDecisionPlan) : result (list Emission) :=
  let forced_exit_symbols := map upper (exit_symbols llm_plan) in
  let equity_candidates :=
    plan_candidates config signals_by_symbol (equity_buy_symbols llm_plan) in
  let option_candidates :=
    plan_candidates config signals_by_symbol (option_buy_symbols llm_plan) in
  equity ← _build_equity_orders config snapshot signals signals_by_symbol account_equity
             (Some equity_candidates) forced_exit_symbols;
  let '(equity_orders, est_cash) := equity in
  let option_orders :=
    _build_option_orders config broker snapshot signals signals_by_symbol account_equity
      est_cash (Some option_candidates) forced_exit_symbols in
  Return (truncate config (equity_orders ++ option_orders)).

Definition rule_based_orders (config : BotConfig) (broker : Broker)
    (snapshot : PortfolioSnapshot) (signals : list Signal)
    (signals_by_symbol : gmap string Signal) (account_equity : R)
    : result (list Emission * bool) :=
  equity ← _build_equity_orders config snapshot signals signals_by_symbol account_equity
             None [];
  let '(equity_orders, est_cash) := equity in
  let option_orders :=
    _build_option_orders config broker snapshot signals signals_by_symbol account_equity
      est_cash None [] in
  Return (truncate config (equity_orders ++ option_orders), false).

Definition _build_orders (config : BotConfig) (broker : Broker)
    (snapshot : PortfolioSnapshot) (signals : list Signal)
    (llm_plan : option LLMDecisionPlan) : result (list Emission * bool) :=
  match signals with
  | [] => Return ([], false)
  | _ =>
      let signals_by_symbol := signals_by_symbol_of signals in
      let account_equity :=
        _estimate_account_equity config broker snapshot signals_by_symbol in
      match llm_plan with
      | Some plan =>
          if enable_llm_first_decisioning config
             && Rle_bool (llm_first_min_confidence config) (confidence plan)
          then
            llm_orders ← _build_orders_from_llm_plan config broker snapshot signals
                           signals_by_symbol account_equity plan;
            match llm_orders with
            | [] => rule_based_orders config broker snapshot signals signals_by_symbol
                      account_equity
            | _ => Return (truncate config llm_orders, true)
            end
          else rule_based_orders config broker snapshot signals signals_by_symbol
                 account_equity
      | None => rule_based_orders config broker snapshot signals signals_by_symbol
                  account_equity
      end
  end.

(** The order list handed to the caller. *)
Definition orders_of (emissions : list Emission) : list TradeOrder := map em_order emissions.

(** *** Vocabulary of the statements about this module *)

(** An entry order stays within the running cash estimate recorded when it
    was appended: a BUY by its notional (quantity x signal price), a
    BUY_TO_OPEN by the premium of its single contract. *)
Definition within_cash (e : Emission) : Prop :=
  match instruction (em_order e) with
  | BUY =>
      exists signal,
        em_source e = FromSignal signal
        /\ order_symbol (em_order e) = symbol signal
        /\ IZR (quantity (em_order e)) * price signal <= em_cash e
  | BUY_TO_OPEN =>
      exists signal contract,
        em_source e = FromContract signal contract
        /\ order_symbol (em_order e) = contract_symbol contract
        /\ quantity (em_order e) = 1%Z
        /\ premium_per_contract contract <= em_cash e
  | SELL => True
  | SELL_TO_CLOSE => True
  end.

(** *** Example data *)

(** Equity only, half the account per position at most, the whole account
    available to equities; starting capital 1000. *)
Definition example_config : BotConfig :=
  mkBotConfig 1000 6 1 0.5 0.012 (-0.018) false 0.3 0.035 21 60 0.45 2 25 8
    true 0.35 true 0.

Definition example_broker : Broker := mkBroker (fun _ => None) (fun _ => None).

(** Cash 500 and no positions. *)
Definition example_snapshot : PortfolioSnapshot := mkPortfolioSnapshot 500 [] [].

Definition example_signal (symbol : string) (score : R) : Signal :=
  mkSignal symbol 100 0.2 0.1 0.05 0.3 0.2 score 0 0 0 0 0 0.

(** Two candidates at price 100, each with a target of 5 shares. *)
Definition example_signals : list Signal :=
  [example_signal "AAA" 0.05; example_signal "BBB" 0.04].

(** The one order built from them: the second candidate's notional of 500
    exceeds the cash left after the first. *)
Definition example_emissions : list Emission :=
  [mkEmission
     (mkTradeOrder EQUITY "AAA" BUY 5 (Some (round2 (100 * 1.0025))) (signal_entry 0.05))
     (FromSignal (example_signal "AAA" 0.05)) 500].





End Engine.

(** * Properties *)

(** ** Float comparisons, clamping and string helpers *)

Lemma Rle_bool_true x y : x <= y -> Rle_bool x y = true.
Proof. intros H. unfold Rle_bool. destruct (Rle_dec x y); [reflexivity | contradiction]. Qed.

Lemma Rle_bool_false x y : y < x -> Rle_bool x y = false.
Proof. intros H. unfold Rle_bool. destruct (Rle_dec x y); [lra | reflexivity]. Qed.

Lemma Rlt_bool_true x y : x < y -> Rlt_bool x y = true.
Proof. intros H. unfold Rlt_bool. destruct (Rlt_dec x y); [reflexivity | contradiction]. Qed.

Lemma Rlt_bool_false x y : y <= x -> Rlt_bool x y = false.
Proof. intros H. unfold Rlt_bool. destruct (Rlt_dec x y); [lra | reflexivity]. Qed.

Lemma Req_bool_true x y : x = y -> Req_bool x y = true.
Proof. intros H. unfold Req_bool. destruct (Req_dec_T x y); [reflexivity | contradiction]. Qed.

Lemma Req_bool_false x y : x <> y -> Req_bool x y = false.
Proof. intros H. unfold Req_bool. destruct (Req_dec_T x y); [contradiction | reflexivity]. Qed.

Lemma truediv_ok x y : y <> 0 -> truediv x y = Return (x / y).
Proof. intros H. unfold truediv. now rewrite Req_bool_false. Qed.

Lemma truediv_zero x : truediv x 0 = Raise ZeroDivisionError.
Proof. unfold truediv. now rewrite Req_bool_true. Qed.

(** Case analysis on every [Rmin]/[Rmax] decision, innermost first. *)
Ltac case_Rle :=
  repeat match goal with
  | |- context [Rle_dec ?a ?b] =>
      lazymatch a with
      | context [Rle_dec _ _] => fail
      | _ =>
          lazymatch b with
          | context [Rle_dec _ _] => fail
          | _ => destruct (Rle_dec a b)
          end
      end
  end.

Ltac clamp_cases := unfold _clamp, Rmax, Rmin in *; case_Rle.

Lemma _clamp_bounds value low high : low <= high -> low <= _clamp value low high <= high.
Proof. intros H. clamp_cases; lra. Qed.

Lemma _clamp_id value low high : low <= value <= high -> _clamp value low high = value.
Proof. intros H. clamp_cases; lra. Qed.

Lemma _clamp_mono low high x y : x <= y -> _clamp x low high <= _clamp y low high.
Proof.
  intros H. unfold _clamp. apply Rle_max_compat_l, Rle_min_compat_l, H.
Qed.

Lemma _clamp_pos value low high : 0 < value -> 0 < high -> 0 < _clamp value low high.
Proof. intros H1 H2. clamp_cases; lra. Qed.

Lemma _clamp_neg value low high : value < 0 -> low < 0 -> _clamp value low high < 0.
Proof. intros H1 H2. clamp_cases; lra. Qed.

Lemma upper_ascii_idemp c : upper_ascii (upper_ascii c) = upper_ascii c.
Proof. destruct c as [[] [] [] [] [] [] [] []]; reflexivity. Qed.

Lemma upper_idemp s : upper (upper s) = upper s.
Proof.
  induction s as [| c s IH]; simpl; [reflexivity |].
  now rewrite upper_ascii_idemp, IH.
Qed.

Example upper_lower_strip :
  upper "nvda" = "NVDA"%string
  /\ lower (strip "  SEC_Filing ") = "sec_filing"%string
  /\ str_or (lower (strip "   ")) "unknown" = "unknown"%string.
Proof. repeat split; reflexivity. Qed.

Example option_underlying_of_occ_symbol :
  Options.option_underlying "nvda  250117C00150000" = "NVDA"%string
  /\ Options.option_underlying "BRK.B 250117C00400000" = "BRK"%string.
Proof. split; reflexivity. Qed.


(** ** Properties of strategy/signals.py *)

Section SignalFacts.

Import Signals.

Lemma neg_index_ok (l : list R) (n : nat) :
  (1 <= n <= length l)%nat -> neg_index l n = Return (nth (length l - n) l 0).
Proof.
  intros [H1 H2]. unfold neg_index.
  destruct (Nat.leb_spec n (length l)) as [_ | Hlt]; [| lia].
  destruct (nth_error l (length l - n)) as [x |] eqn:E.
  - now rewrite (nth_error_nth _ _ 0 E).
  - apply nth_error_None in E. lia.
Qed.

Lemma tail_slice_length {A : Type} (n : nat) (l : list A) :
  (n <= length l)%nat -> length (tail_slice n l) = n.
Proof. intros H. unfold tail_slice. rewrite length_skipn. lia. Qed.

Lemma fmean_ok (l : list R) :
  (0 < length l)%nat -> fmean l = Return (fsum l / INR (length l)).
Proof. destruct l; simpl; [lia | reflexivity]. Qed.

Lemma stdev_returns (l : list R) :
  (2 <= length l)%nat -> exists sd, stdev l = Return sd.
Proof.
  intros H. unfold stdev.
  destruct (Nat.ltb_spec (length l) 2); [lia |]. eauto.
Qed.

Lemma _annualized_volatility_returns (closes : list R) (window : nat) :
  exists v, _annualized_volatility closes window = Return v.
Proof.
  unfold _annualized_volatility.
  destruct (Nat.ltb_spec (length (_daily_returns (tail_slice (window + 1) closes))) 2) as [H | H].
  - eauto.
  - destruct (stdev_returns _ H) as [sd ->]. simpl. eauto.
Qed.

Lemma compute_signal_with_ai_guard symbol price closes news s l c sw lw :
  price <= 0 \/ (length closes < 25)%nat ->
  compute_signal_with_ai symbol price closes news s l c sw lw = Return None.
Proof.
  intros H. unfold compute_signal_with_ai.
  destruct H as [H | H].
  - now rewrite Rle_bool_true.
  - destruct (Nat.ltb_spec (length closes) 25) as [_ | Hge]; [| lia].
    now rewrite orb_true_r.
Qed.

(** Past the guard, with non-zero closes at positions -21 and -6, every
    step of the body succeeds and the record below is returned. *)
Lemma compute_signal_with_ai_returns symbol price closes news s l c sw lw :
  0 < price -> (25 <= length closes)%nat ->
  nth (length closes - 21) closes 0 <> 0 ->
  nth (length closes - 6) closes 0 <> 0 ->
  exists trend vol,
    compute_signal_with_ai symbol price closes news s l c sw lw =
    Return (Some {|
      symbol := symbol;
      price := price;
      momentum_20d :=
        nth (length closes - 1) closes 0 / nth (length closes - 21) closes 0 - 1;
      momentum_5d :=
        nth (length closes - 1) closes 0 / nth (length closes - 6) closes 0 - 1;
      trend_20d := trend;
      volatility_20d := vol;
      news_score := news;
      score :=
        0.45 * (nth (length closes - 1) closes 0 / nth (length closes - 21) closes 0 - 1)
        + 0.20 * (nth (length closes - 1) closes 0 / nth (length closes - 6) closes 0 - 1)
        + 0.20 * trend
        + 0.25 * news
        + sw * s
        + lw * l
        - 0.15 * Rmin vol 1;
      current_news_score := 0;
      historical_news_score := 0;
      ai_short_term_score := s;
      ai_long_term_score := l;
      ai_confidence := c;
      macro_score := 0
    |}).
Proof.
  intros Hp Hlen H21 H6. unfold compute_signal_with_ai.
  rewrite Rle_bool_false by exact Hp.
  destruct (Nat.ltb_spec (length closes) 25) as [Hlt | _]; [lia |].
  rewrite !neg_index_ok by lia. simpl.
  rewrite !truediv_ok by assumption. simpl.
  rewrite fmean_ok by (rewrite tail_slice_length; lia). simpl.
  destruct (_annualized_volatility_returns closes 20) as [vol Hvol].
  destruct (Rlt_dec 0 (fsum (tail_slice 20 closes) / INR (length (tail_slice 20 closes))))
    as [Hs | Hs].
  - rewrite Rlt_bool_true by exact Hs.
    rewrite truediv_ok by lra. simpl. rewrite Hvol. simpl. eauto.
  - rewrite Rlt_bool_false by lra. simpl. rewrite Hvol. simpl. eauto.
Qed.

(** The result is [None] exactly on the guard: past it the body either
    raises or returns a Signal. *)
Lemma compute_signal_with_ai_none_iff symbol price closes news s l c sw lw :
  compute_signal_with_ai symbol price closes news s l c sw lw = Return None <->
  price <= 0 \/ (length closes < 25)%nat.
Proof.
  split; [| apply compute_signal_with_ai_guard].
  intros H.
  destruct (Rle_dec price 0) as [Hp | Hp]; [now left |].
  destruct (Nat.ltb_spec (length closes) 25) as [Hlt | Hge]; [now right |].
  exfalso. revert H. unfold compute_signal_with_ai.
  rewrite Rle_bool_false by lra.
  destruct (Nat.ltb_spec (length closes) 25) as [Hlt | _]; [lia |]. simpl.
  destruct (neg_index closes 1) as [last |]; simpl; [| discriminate].
  destruct (neg_index closes 21) as [c21 |]; simpl; [| discriminate].
  destruct (truediv last c21) as [q20 |]; simpl; [| discriminate].
  destruct (neg_index closes 6) as [c6 |]; simpl; [| discriminate].
  destruct (truediv last c6) as [q5 |]; simpl; [| discriminate].
  destruct (fmean (tail_slice 20 closes)) as [sma |]; simpl; [| discriminate].
  destruct (Rlt_bool 0 sma); simpl.
  - destruct (truediv last sma) as [q |]; simpl; [| discriminate].
    destruct (_annualized_volatility closes 20); simpl; discriminate.
  - destruct (_annualized_volatility closes 20); simpl; discriminate.
Qed.

(** A zero close 21 places from the end makes the momentum division raise,
    whatever the other inputs. *)
Lemma compute_signal_with_ai_zero_close symbol price closes news s l c sw lw :
  0 < price -> (25 <= length closes)%nat ->
  nth (length closes - 21) closes 0 = 0 ->
  compute_signal_with_ai symbol price closes news s l c sw lw = Raise ZeroDivisionError.
Proof.
  intros Hp Hlen H21. unfold compute_signal_with_ai.
  rewrite Rle_bool_false by exact Hp.
  destruct (Nat.ltb_spec (length closes) 25) as [Hlt | _]; [lia |].
  rewrite !neg_index_ok by lia. simpl.
  rewrite H21, truediv_zero. reflexivity.
Qed.

(** C10. [compute_signal] returns what [compute_signal_with_ai] returns when
    the three AI inputs and the two AI weights are all 0.0: the same
    exception, the same [None], or the same Signal. *)
Theorem compute_signal_specializes symbol price closes news :
  compute_signal symbol price closes news =
  compute_signal_with_ai symbol price closes news 0 0 0 0 0.
Proof. reflexivity. Qed.

(** Called directly with price 100.0 and twenty-five closes that are all
    100.0 except for a 0.0 in position -21, the guard is passed and
    [closes[-1] / closes[-21]] raises ZeroDivisionError. The broker's
    [get_history] never hands over such a list, see
    [get_history_positive]. *)
Lemma compute_signal_with_ai_raises_on_zero_close :
  compute_signal_with_ai "NVDA" 100 (repeat 100 4 ++ [0] ++ repeat 100 20) 0 0 0 0 0 0
  = Raise ZeroDivisionError.
Proof.
  apply compute_signal_with_ai_zero_close.
  - lra.
  - simpl. lia.
  - reflexivity.
Qed.

(** [get_history] keeps only closes above 0, whatever the payload holds
    and whatever [days] is. *)
Lemma get_history_positive (candles : list SchwabBroker.Candle) (days : Z) :
  Forall (fun close => 0 < close) (SchwabBroker.get_history candles days).
Proof.
  unfold SchwabBroker.get_history.
  set (step := fun (closes : list R) (candle : SchwabBroker.Candle) => _).
  assert (forall items acc,
             Forall (fun close => 0 < close) acc ->
             Forall (fun close => 0 < close) (fold_left step items acc)) as Hfold.
  { induction items as [| candle items IH]; intros acc Hacc; [exact Hacc |].
    cbn [fold_left]. apply IH. unfold step.
    destruct (SchwabBroker.candle_close candle) as [close |]; [| exact Hacc].
    destruct (Rlt_dec 0 close) as [Hpos | Hneg].
    - rewrite Rlt_bool_true by exact Hpos. apply Forall_app. split; [exact Hacc |].
      now constructor.
    - rewrite Rlt_bool_false by lra. exact Hacc. }
  assert (Forall (fun close => 0 < close) (fold_left step candles [])) as Hall
    by (apply Hfold; constructor).
  destruct (0 <? days)%Z; [| exact Hall].
  unfold tail_slice. now apply Forall_drop.
Qed.

(** A list of closes above 0 has no zero entry at any position inside it. *)
Lemma positive_closes_nth (closes : list R) (n : nat) :
  Forall (fun close => 0 < close) closes -> (n < length closes)%nat ->
  nth n closes 0 <> 0.
Proof.
  intros Hall Hn.
  assert (0 < nth n closes 0); [| lra].
  rewrite Forall_forall in Hall. apply Hall, list_elem_of_In, nth_In, Hn.
Qed.

(** C7. [compute_signal_with_ai] returns [None] if and only if price <= 0
    or fewer than 25 closes are supplied; on closes that are all above 0,
    every price > 0 and every list of at least 25 closes give a Signal (for
    the symbol and price asked): no feature computation raises or turns the
    result into [None]; and closes above 0 are what the broker's
    [get_history] hands to the engine, whatever the payload and [days]. *)
Theorem compute_signal_with_ai_none_iff_guard sym px closes news s l c sw lw :
  (compute_signal_with_ai sym px closes news s l c sw lw = Return None <->
   px <= 0 \/ (length closes < 25)%nat)
  /\ (Forall (fun close => 0 < close) closes ->
      0 < px -> (25 <= length closes)%nat ->
      exists sig,
        compute_signal_with_ai sym px closes news s l c sw lw = Return (Some sig)
        /\ symbol sig = sym /\ price sig = px)
  /\ (forall candles days,
        Forall (fun close => 0 < close) (SchwabBroker.get_history candles days)).
Proof.
  split; [apply compute_signal_with_ai_none_iff |].
  split; [| apply get_history_positive].
  intros Hall Hp Hlen.
  destruct (compute_signal_with_ai_returns sym px closes news s l c sw lw Hp Hlen)
    as (trend & vol & ->).
  - apply positive_closes_nth; [exact Hall | lia].
  - apply positive_closes_nth; [exact Hall | lia].
  - eexists. split; [reflexivity |]. split; reflexivity.
Qed.

Lemma compute_signal_with_ai_none_iff_guard_witness :
  exists sig,
    compute_signal_with_ai "NVDA" 100 (repeat 101 25) 0 0 0 0 0 0 = Return (Some sig)
    /\ symbol sig = "NVDA"%string /\ price sig = 100.
Proof.
  apply (proj1 (proj2 (compute_signal_with_ai_none_iff_guard "NVDA" 100 (repeat 101 25)
                         0 0 0 0 0 0))).
  - repeat constructor; lra.
  - lra.
  - simpl. lia.
Defined.

(** C1 (as the code has it). For price > 0 and at least 25 closes whose
    entries at positions -21 and -6 are non-zero, a Signal is returned whose
    score is 0.45*momentum_20d + 0.20*momentum_5d + 0.20*trend_20d +
    0.25*sentiment + short_weight*ai_short + long_weight*ai_long -
    0.15*min(volatility_20d, 1.0); the confidence is stored in the Signal and
    does not enter the score. *)
Theorem compute_signal_with_ai_score symbol price closes news s l c sw lw :
  0 < price -> (25 <= length closes)%nat ->
  nth (length closes - 21) closes 0 <> 0 ->
  nth (length closes - 6) closes 0 <> 0 ->
  exists sig,
    compute_signal_with_ai symbol price closes news s l c sw lw = Return (Some sig)
    /\ momentum_20d sig =
         nth (length closes - 1) closes 0 / nth (length closes - 21) closes 0 - 1
    /\ momentum_5d sig =
         nth (length closes - 1) closes 0 / nth (length closes - 6) closes 0 - 1
    /\ ai_confidence sig = c
    /\ score sig =
         0.45 * momentum_20d sig
         + 0.20 * momentum_5d sig
         + 0.20 * trend_20d sig
         + 0.25 * news
         + sw * s
         + lw * l
         - 0.15 * Rmin (volatility_20d sig) 1.
Proof.
  intros Hp Hlen H21 H6.
  destruct (compute_signal_with_ai_returns symbol price closes news s l c sw lw
              Hp Hlen H21 H6) as (trend & vol & ->).
  eexists. split; [reflexivity |]. simpl. repeat split; reflexivity.
Qed.

Lemma compute_signal_with_ai_score_witness :
  exists sig,
    compute_signal_with_ai "NVDA" 100 (repeat 100 25) 0.4 1 1 0.5 0.1 0.2 =
      Return (Some sig)
    /\ momentum_20d sig = 100 / 100 - 1
    /\ momentum_5d sig = 100 / 100 - 1
    /\ ai_confidence sig = 0.5
    /\ score sig =
         0.45 * momentum_20d sig
         + 0.20 * momentum_5d sig
         + 0.20 * trend_20d sig
         + 0.25 * 0.4
         + 0.1 * 1
         + 0.2 * 1
         - 0.15 * Rmin (volatility_20d sig) 1.
Proof.
  apply (compute_signal_with_ai_score "NVDA" 100 (repeat 100 25) 0.4 1 1 0.5 0.1 0.2).
  - lra.
  - simpl. lia.
  - simpl. lra.
  - simpl. lra.
Defined.

(** With confidence 0.5, short-term score 1 and short-term weight 1 the
    returned score differs from the composite that scales the AI terms by
    the confidence. *)
Lemma compute_signal_with_ai_confidence_counterexample :
  exists sig,
    compute_signal_with_ai "NVDA" 100 (repeat 100 25) 0 1 0 0.5 1 0 = Return (Some sig)
    /\ score sig <> spec_composite_score sig 0 1 0 0.5 1 0.
Proof.
  destruct (compute_signal_with_ai_returns "NVDA" 100 (repeat 100 25) 0 1 0 0.5 1 0)
    as (trend & vol & ->).
  - lra.
  - simpl. lia.
  - simpl. lra.
  - simpl. lra.
  - eexists. split; [reflexivity |].
    unfold spec_composite_score. simpl. lra.
Qed.

End SignalFacts.

(** ** Properties of data/news.py *)

Section NewsFacts.

Import News.

Example _headline_score_mixed :
  findall_words EmptyString (lower "Nvidia BEATS estimates; lawsuit risk, strong demand")
  = ["nvidia"; "beats"; "estimates"; "lawsuit"; "risk"; "strong"; "demand"]%string.
Proof. reflexivity. Qed.

Example _headline_score_value :
  _headline_score "Nvidia BEATS estimates; lawsuit risk, strong demand" = 1 / 5.
Proof.
  unfold _headline_score.
  set (words := findall_words _ _). vm_compute in words. subst words.
  unfold count_in.
  set (positive := Z.of_nat _). vm_compute in positive.
  set (negative := Z.of_nat _). vm_compute in negative.
  subst positive negative. simpl.
  rewrite minus_IZR, plus_IZR. lra.
Qed.

Lemma group_step_counted acc item :
  counts_nonneg acc -> counted acc ->
  counts_nonneg (group_step acc item) /\ counted (group_step acc item).
Proof.
  destruct acc as [scores counts]. unfold counts_nonneg, counted, group_step. simpl.
  intros Hnn Hc. split.
  - intros k n. rewrite lookup_insert. case_decide as Hk.
    + intros [= <-]. destruct (counts !! item_source_type item) as [m |] eqn:E; simpl.
      * specialize (Hnn _ _ E). lia.
      * lia.
    + apply Hnn.
  - intros k l. rewrite !lookup_insert. case_decide as Hk.
    + intros _. eexists. split; [reflexivity |].
      destruct (counts !! item_source_type item) as [m |] eqn:E; simpl.
      * specialize (Hnn _ _ E). lia.
      * lia.
    + apply Hc.
Qed.

Lemma fold_group_step_counted items acc :
  counts_nonneg acc -> counted acc ->
  counts_nonneg (fold_left group_step items acc) /\ counted (fold_left group_step items acc).
Proof.
  revert acc. induction items as [| item items IH]; intros acc Hnn Hc; simpl.
  - now split.
  - destruct (group_step_counted acc item Hnn Hc) as [Hnn' Hc']. now apply IH.
Qed.

Lemma group_items_counted items : counted (group_items items).
Proof.
  unfold group_items. apply fold_group_step_counted.
  - intros k n. simpl. rewrite lookup_empty. discriminate.
  - intros k l. simpl. rewrite lookup_empty. discriminate.
Qed.

Lemma fold_group_step_keeps items acc k :
  is_Some (acc.1 !! k) -> is_Some ((fold_left group_step items acc).1 !! k).
Proof.
  revert acc. induction items as [| item items IH]; intros acc Hk; simpl; [exact Hk |].
  apply IH. destruct acc as [scores counts]. unfold group_step. simpl in *.
  rewrite lookup_insert. case_decide; [eauto | exact Hk].
Qed.

Lemma group_items_nonempty items :
  items <> [] -> (group_items items).1 <> ∅.
Proof.
  destruct items as [| item items]; [congruence |]. intros _ Hempty.
  assert (is_Some ((group_items (item :: items)).1 !! item_source_type item)) as Hkeep.
  { unfold group_items. cbn [fold_left]. apply fold_group_step_keeps.
    unfold group_step. cbn [fst]. rewrite lookup_insert_eq. eauto. }
  rewrite Hempty, lookup_empty in Hkeep.
  destruct Hkeep as [x Hx]. discriminate.
Qed.

Lemma source_multiplier_pos mults st : 0.10 <= source_multiplier mults st.
Proof.
  unfold source_multiplier. destruct mults as [m |]; [apply Rmax_l | lra].
Qed.

Lemma fold_blend_step_weight counts mults entries acc :
  (forall k l, In (k, l) entries -> exists n, counts !! k = Some n /\ (1 <= n)%Z) ->
  acc.2 + 0.10 * INR (length entries)
  <= (fold_left (blend_step counts mults) entries acc).2.
Proof.
  revert acc. induction entries as [| [k l] entries IH]; intros acc Hin.
  - simpl. lra.
  - change (fold_left (blend_step counts mults) ((k, l) :: entries) acc)
      with (fold_left (blend_step counts mults) entries (blend_step counts mults acc (k, l))).
    eapply Rle_trans; [| apply IH; intros k' l' H'; apply (Hin k' l'); now right].
    destruct (Hin k l (or_introl eq_refl)) as (n & Hn & Hge).
    destruct acc as [[sent ws] tw]. unfold blend_step. rewrite Hn.
    cbn [snd fst default length]. unfold Datatypes.id. rewrite S_INR.
    pose proof (source_multiplier_pos mults k) as Hm.
    assert (1 <= IZR n) as Hn1 by (apply IZR_le in Hge; exact Hge).
    nra.
Qed.

Lemma total_weight_pos items mults :
  items <> [] -> 0 < total_weight items mults.
Proof.
  intros Hne. unfold total_weight, blend_sources.
  pose proof (group_items_counted items) as Hc.
  pose proof (group_items_nonempty items Hne) as Hs.
  destruct (group_items items) as [scores counts]. simpl in *.
  pose proof (fold_blend_step_weight counts mults (map_to_list scores) (∅, 0, 0)) as Hw.
  simpl in Hw.
  assert (0 < INR (length (map_to_list scores))) as Hlen.
  { apply lt_0_INR. destruct (map_to_list scores) eqn:E; simpl; [| lia].
    apply map_to_list_empty_iff in E. contradiction. }
  eapply Rlt_le_trans; [| apply Hw].
  - lra.
  - intros k l Hin. apply (Hc k l).
    apply elem_of_map_to_list. now apply list_elem_of_In.
Qed.

(** C8. [source_weighted_sentiment] returns (0.0, {}, {}) when the item list
    is empty or the total count x multiplier weight is zero; the weight of a
    non-empty item list is positive, so the second case only arises with
    the first. *)
Theorem source_weighted_sentiment_empty items mults :
  items = [] \/ total_weight items mults <= 0 ->
  source_weighted_sentiment items mults = (0, ∅, ∅).
Proof.
  intros [-> | Hw]; [reflexivity |].
  destruct items as [| item items]; [reflexivity |].
  pose proof (total_weight_pos (item :: items) mults) as Hpos.
  assert (item :: items <> []) as Hne by discriminate.
  specialize (Hpos Hne). lra.
Qed.

Lemma source_weighted_sentiment_empty_witness :
  source_weighted_sentiment [] None = (0, ∅, ∅).
Proof.
  apply (source_weighted_sentiment_empty [] None). left. reflexivity.
Defined.

End NewsFacts.

(** ** Properties of LongTermMemoryStore *)

Section MemoryFacts.

Import Memory.

(** The smoothing of the specification's example: a first update with 0.8
    stores 0.8, a second with 0.0 and alpha 0.5 stores 0.4. *)
Example update_twice :
  let first := update (mkStore 0.5 ∅) "nvda" 0.8 "t0" in
  let second := update first.1 "NVDA" 0 "t1" in
  first.2 = 0.8 /\ second.2 = 0.4 /\ get second.1 "nvda" = 0.4.
Proof.
  assert (_clamp 0.8 (-1) 1 = 0.8) as H8 by (apply _clamp_id; lra).
  assert (_clamp 0 (-1) 1 = 0) as H0 by (apply _clamp_id; lra).
  assert (_clamp (0.5 * 0 + (1 - 0.5) * 0.8) (-1) 1 = 0.4) as H4
      by (rewrite _clamp_id; lra).
  assert (update (mkStore 0.5 ∅) "nvda" 0.8 "t0"
          = (mkStore 0.5 (<["NVDA"%string := mkRow (Some 0.8) None None (Some "t0"%string)]> ∅),
             0.8)) as Hfirst.
  { unfold update. cbn [alpha state]. rewrite lookup_empty. cbn [default].
    rewrite !H8. reflexivity. }
  cbn zeta. rewrite Hfirst. cbn [fst snd].
  split; [reflexivity |].
  unfold update. cbn [alpha state].
  replace (upper "NVDA") with "NVDA"%string by reflexivity.
  rewrite !lookup_insert_eq.
  match goal with |- context [get ?st "NVDA"] => replace (get st "NVDA") with 0.8 by reflexivity end.
  rewrite H0, H4. cbn [fst snd]. split; [reflexivity |].
  unfold get. cbn [state]. replace (upper "nvda") with "NVDA"%string by reflexivity.
  rewrite lookup_insert_eq. reflexivity.
Qed.

Lemma apply_price_feedback_path self symbol row prediction reference current strength now :
  state self !! upper symbol = Some row ->
  row_last_prediction row = Some prediction ->
  row_last_price row = Some reference ->
  0 < reference -> 0 < current ->
  apply_price_feedback self symbol current strength now =
  (mkStore (alpha self)
     (<[upper symbol :=
          mkRow (Some (_clamp (get self (upper symbol)
                               + feedback_adjustment prediction reference current strength)
                         (-1) 1))
                (Some prediction) (Some current) (Some now)]> (state self)),
   feedback_adjustment prediction reference current strength).
Proof.
  intros Hrow Hpred Href Hr Hc. unfold apply_price_feedback.
  rewrite Rle_bool_false by exact Hc. rewrite Hrow.
  assert (row_falsy row = false) as ->.
  { unfold row_falsy. rewrite Hpred. now destruct (row_score row). }
  rewrite Hpred, Href. rewrite Rle_bool_false by exact Hr. reflexivity.
Qed.

Lemma feedback_adjustment_neg prediction reference current strength :
  0 < prediction -> 0 < current < reference -> 0 < strength ->
  feedback_adjustment prediction reference current strength < 0.
Proof.
  intros Hp [Hc Hr] Hs. unfold feedback_adjustment.
  assert (0 < _clamp prediction (-1) 1) as Hpred by (apply _clamp_pos; lra).
  assert (0 < _clamp strength 0 1) as Hstr by (apply _clamp_pos; lra).
  assert (current / reference < 1) as Hq.
  { apply (Rmult_lt_reg_r reference); [lra |]. field_simplify; lra. }
  assert (_clamp ((current / reference - 1) / 0.125) (-1) 1 < 0) as Hsig
      by (apply _clamp_neg; lra).
  rewrite (Rabs_right (_clamp prediction (-1) 1)) by lra.
  set (p := _clamp prediction (-1) 1) in *.
  set (g := _clamp ((current / reference - 1) / 0.125) (-1) 1) in *.
  set (f := _clamp strength 0 1) in *.
  assert (0 < f * p * p) as Hfpp by (repeat apply Rmult_lt_0_compat; assumption).
  replace (f * (p * g) * p) with ((f * p * p) * g) by ring.
  nra.
Qed.

Lemma get_after_insert self symbol row :
  row_score row <> None ->
  get (mkStore (alpha self) (<[upper symbol := row]> (state self))) symbol
  = default 0 (row_score row).
Proof.
  intros Hs. unfold get. simpl. rewrite lookup_insert_eq.
  unfold row_falsy. destruct (row_score row); [reflexivity | contradiction].
Qed.

Lemma get_upper self symbol : get self (upper symbol) = get self symbol.
Proof. unfold get. now rewrite upper_idemp. Qed.

Lemma apply_price_feedback_noop self symbol current strength now :
  current <= 0 \/ no_feedback_basis self symbol ->
  apply_price_feedback self symbol current strength now = (self, 0).
Proof.
  intros H. unfold apply_price_feedback.
  destruct (Rle_dec current 0) as [Hc | Hc]; [now rewrite Rle_bool_true |].
  rewrite Rle_bool_false by lra.
  destruct H as [H | H]; [lra |].
  unfold no_feedback_basis in H.
  destruct (state self !! upper symbol) as [row |]; [| reflexivity].
  destruct (row_falsy row); [reflexivity |].
  destruct (row_last_prediction row) as [prediction |]; [| reflexivity].
  destruct H as [H | H]; [discriminate |].
  destruct (row_last_price row) as [reference |]; [| reflexivity].
  now rewrite Rle_bool_true.
Qed.

(** C3 (as the code has it). With a stored positive prediction, a positive
    reference price, 0 < current_price < reference price, a strength > 0 and
    a stored score above -1, the returned adjustment is negative and the
    stored score strictly decreases; with current_price <= 0, or no entry, or
    no prediction, or no positive reference price, the call returns 0 and
    leaves the store unchanged. *)
Theorem apply_price_feedback_wrong_way self symbol current strength now :
  (forall row prediction reference,
      state self !! upper symbol = Some row ->
      row_last_prediction row = Some prediction ->
      row_last_price row = Some reference ->
      0 < prediction -> 0 < current < reference ->
      0 < strength -> -1 < get self symbol ->
      (apply_price_feedback self symbol current strength now).2 < 0
      /\ get (apply_price_feedback self symbol current strength now).1 symbol
         < get self symbol)
  /\ (current <= 0 \/ no_feedback_basis self symbol ->
      apply_price_feedback self symbol current strength now = (self, 0)).
Proof.
  split; [| apply apply_price_feedback_noop].
  intros row prediction reference Hrow Hpred Href Hp Hc Hs Hscore.
  rewrite (apply_price_feedback_path self symbol row prediction reference
             current strength now Hrow Hpred Href) by lra.
  pose proof (feedback_adjustment_neg prediction reference current strength Hp Hc Hs) as Hadj.
  cbn [fst snd]. split; [exact Hadj |].
  rewrite get_after_insert by discriminate. cbn [row_score default].
  rewrite get_upper.
  set (a := feedback_adjustment prediction reference current strength) in *.
  set (g := get self symbol) in *.
  unfold Datatypes.id. clamp_cases; lra.
Qed.

Lemma apply_price_feedback_wrong_way_witness :
  (apply_price_feedback (example_store 0.5) "nvda" 90 1 "t1").2 < 0
  /\ get (apply_price_feedback (example_store 0.5) "nvda" 90 1 "t1").1 "nvda"
     < get (example_store 0.5) "nvda".
Proof.
  apply (proj1 (apply_price_feedback_wrong_way (example_store 0.5) "nvda" 90 1 "t1")
           (mkRow (Some 0.5) (Some 0.8) (Some 100) None) 0.8 100).
  - reflexivity.
  - reflexivity.
  - reflexivity.
  - lra.
  - lra.
  - lra.
  - replace (get (example_store 0.5) "nvda") with 0.5 by reflexivity. lra.
Defined.

(** A zero strength gives a zero adjustment, and a score already at -1
    stays at -1: in neither case does the claimed strict effect occur. *)
Lemma apply_price_feedback_counterexample :
  (apply_price_feedback (example_store 0.5) "NVDA" 90 0 "t1").2 = 0
  /\ get (apply_price_feedback (example_store (-1)) "NVDA" 90 1 "t1").1 "NVDA"
     = get (example_store (-1)) "NVDA".
Proof.
  split.
  - rewrite (apply_price_feedback_path (example_store 0.5) "NVDA"
               (mkRow (Some 0.5) (Some 0.8) (Some 100) None) 0.8 100 90 0 "t1")
      by (reflexivity || lra).
    cbn [snd]. unfold feedback_adjustment.
    replace (_clamp 0 0 1) with 0 by (clamp_cases; lra). ring.
  - rewrite (apply_price_feedback_path (example_store (-1)) "NVDA"
               (mkRow (Some (-1)) (Some 0.8) (Some 100) None) 0.8 100 90 1 "t1")
      by (reflexivity || lra).
    cbn [fst]. rewrite get_after_insert by discriminate. cbn [row_score default].
    pose proof (feedback_adjustment_neg 0.8 100 90 1) as Hadj.
    assert (get (example_store (-1)) "NVDA" = -1) as Hg by (unfold get; reflexivity).
    rewrite get_upper, Hg.
    set (a := feedback_adjustment 0.8 100 90 1) in *.
    assert (a < 0) by (apply Hadj; lra).
    unfold Datatypes.id. clamp_cases; lra.
Qed.

End MemoryFacts.

(** ** Properties of DecisionLearningStore *)

Section LearningFacts.

Import DecisionLearning.

Lemma adjustment_for_fold (feature_profile : odict R) (items : list (string * R)) (start : R) :
  fold_left
    (fun adjustment item =>
       let '(key, penalty) := item in
       adjustment - penalty * Rmax 0 (default 0 (od_get feature_profile key)))
    items start
  = start - fsum (map (fun item => snd item
                         * Rmax 0 (default 0 (od_get feature_profile (fst item)))) items).
Proof.
  revert start. induction items as [| [key penalty] items IH]; intros start; simpl.
  - lra.
  - rewrite IH. simpl. lra.
Qed.

Lemma fsum_nonneg (l : list R) : Forall (fun x => 0 <= x) l -> 0 <= fsum l.
Proof. induction 1 as [| x l Hx _ IH]; simpl; lra. Qed.

(** C9. [adjustment_for] is minus the sum over the penalty keys of
    penalty[k] * max(0, profile[k]); when no stored penalty is negative the
    adjustment is never positive. *)
Theorem adjustment_for_dampens self (feature_profile : odict R) :
  adjustment_for self feature_profile = spec_adjustment self feature_profile
  /\ ((forall key p, feature_penalties self !! key = Some p -> 0 <= p) ->
      adjustment_for self feature_profile <= 0).
Proof.
  unfold adjustment_for, spec_adjustment. rewrite adjustment_for_fold.
  split; [lra |]. intros Hpen.
  assert (0 <= fsum (map (fun item : string * R =>
                            snd item * Rmax 0 (default 0 (od_get feature_profile (fst item))))
                       (map_to_list (feature_penalties self)))) as Hsum.
  { apply fsum_nonneg. apply Forall_forall. intros x Hx.
    apply list_elem_of_In, in_map_iff in Hx. destruct Hx as ([key p] & <- & Hin).
    apply list_elem_of_In, elem_of_map_to_list in Hin. simpl.
    apply Rmult_le_pos; [eauto | apply Rmax_l]. }
  lra.
Qed.

Lemma adjustment_for_dampens_witness :
  adjustment_for (new_store 24 (-0.03) 0.03 0.2 0.5 true 0.18 0.8 0.35)
                 [("momentum_20d"%string, 0.1)] <= 0.
Proof.
  apply (proj2 (adjustment_for_dampens (new_store 24 (-0.03) 0.03 0.2 0.5 true 0.18 0.8 0.35)
                  [("momentum_20d"%string, 0.1)])).
  intros key p H.
  apply elem_of_list_to_map_2, list_elem_of_In in H.
  simpl in H.
  repeat (destruct H as [H | H]; [injection H as _ <-; lra |]).
  contradiction.
Defined.

Lemma penalty_step_self self fp magnitude outcome acc key :
  penalty_of (penalty_step self fp magnitude outcome acc key).1 key
  = step_value self fp magnitude outcome (penalty_of acc.1 key) key.
Proof.
  destruct acc as [penalties changed]. unfold penalty_step, step_value, exposure_of.
  cbn [fst]. fold (penalty_of penalties key).
  destruct (Req_bool (Rmax 0 (default 0 (od_get fp key))) 0); [reflexivity |].
  match goal with |- context [Req_bool ?a ?b] => destruct (Req_dec_T a b) as [E | E] end.
  - rewrite Req_bool_true by exact E. cbn [fst]. now rewrite E.
  - rewrite Req_bool_false by exact E. cbn [fst].
    unfold penalty_of at 1. now rewrite lookup_insert_eq.
Qed.

Lemma penalty_step_other self fp magnitude outcome acc key key' :
  key' <> key ->
  (penalty_step self fp magnitude outcome acc key).1 !! key' = acc.1 !! key'.
Proof.
  intros Hne. destruct acc as [penalties changed]. unfold penalty_step. cbn [fst].
  repeat match goal with |- context [if ?b then _ else _] => destruct b end;
    cbn [fst]; try reflexivity.
  now rewrite lookup_insert_ne.
Qed.

Lemma fold_penalty_step_other self fp magnitude outcome keys acc key :
  ~ In key keys ->
  (fold_left (penalty_step self fp magnitude outcome) keys acc).1 !! key = acc.1 !! key.
Proof.
  revert acc. induction keys as [| k keys IH]; intros acc Hnot; simpl; [reflexivity |].
  rewrite IH by (intros H; apply Hnot; now right).
  apply penalty_step_other. intros ->. apply Hnot. now left.
Qed.

Lemma fold_penalty_step_in self fp magnitude outcome keys acc key :
  List.NoDup keys -> In key keys ->
  penalty_of (fold_left (penalty_step self fp magnitude outcome) keys acc).1 key
  = step_value self fp magnitude outcome (penalty_of acc.1 key) key.
Proof.
  intros Hnd. revert acc. induction Hnd as [| k keys Hk Hnd IH]; intros acc Hin.
  - destruct Hin.
  - simpl. destruct (string_dec key k) as [-> | Hne].
    + unfold penalty_of at 1.
      rewrite fold_penalty_step_other by exact Hk.
      apply penalty_step_self.
    + destruct Hin as [-> | Hin]; [contradiction |].
      rewrite IH by exact Hin. f_equal. unfold penalty_of.
      now rewrite penalty_step_other.
Qed.

Lemma FEATURE_KEYS_NoDup : List.NoDup FEATURE_KEYS.
Proof. unfold FEATURE_KEYS. apply NoDup_ListNoDup. compute_done. Qed.

Lemma _update_penalties_key self fp realized_return outcome key :
  In key FEATURE_KEYS ->
  penalty_of (_update_penalties self fp realized_return outcome).1 key
  = step_value self fp (Rmin (Rabs realized_return / 0.05) 2) outcome
      (penalty_of (feature_penalties self) key) key.
Proof.
  intros Hin. unfold _update_penalties.
  now rewrite fold_penalty_step_in by (exact FEATURE_KEYS_NoDup || exact Hin).
Qed.

Lemma penalty_step_bounds self fp magnitude outcome acc key :
  0 <= max_feature_penalty self ->
  (forall k p, acc.1 !! k = Some p -> 0 <= p <= max_feature_penalty self) ->
  forall k p, (penalty_step self fp magnitude outcome acc key).1 !! k = Some p ->
    0 <= p <= max_feature_penalty self.
Proof.
  intros Hmax Hacc k p. destruct acc as [penalties changed]. unfold penalty_step.
  cbn [fst] in *.
  destruct (Req_bool (Rmax 0 (default 0 (od_get fp key))) 0); [apply Hacc |].
  match goal with |- context [Req_bool ?a ?b] => destruct (Req_bool a b) end;
    [apply Hacc |].
  cbn [fst]. rewrite lookup_insert. case_decide as Hk; [| apply Hacc].
  intros [= <-]. destruct outcome.
  - destruct (penalties !! key) as [q |] eqn:E; simpl.
    + exact (Hacc _ _ E).
    + lra.
  - now apply _clamp_bounds.
  - now apply _clamp_bounds.
Qed.

Lemma _update_penalties_bounds self fp realized_return outcome :
  0 <= max_feature_penalty self -> penalties_in_bounds self ->
  forall k p, (_update_penalties self fp realized_return outcome).1 !! k = Some p ->
    0 <= p <= max_feature_penalty self.
Proof.
  intros Hmax Hb. unfold _update_penalties.
  generalize FEATURE_KEYS as keys.
  assert (forall k p, (feature_penalties self, (∅ : gmap string R)).1 !! k = Some p ->
                      0 <= p <= max_feature_penalty self) as Hacc by exact Hb.
  revert Hacc. generalize (feature_penalties self, (∅ : gmap string R)) as acc.
  intros acc Hacc keys. revert acc Hacc.
  induction keys as [| key keys IH]; intros acc Hacc; simpl; [exact Hacc |].
  apply IH. now apply penalty_step_bounds.
Qed.

Lemma maybe_resolve_call_resolves self symbol current now call created entry :
  0 < current ->
  open_calls self !! upper symbol = Some call ->
  call_created_at call = Instant created ->
  (evaluation_horizon self <= now - created)%Z ->
  call_entry_price call = Some entry ->
  0 < entry ->
  exists event,
    maybe_resolve_call self symbol current now =
      (with_state self
         (_update_penalties self (call_feature_profile call) (current / entry - 1)
            (outcome_of self (current / entry - 1))).1
         (_update_source_bias self (_normalize_source_profile (call_source_profile call))
            (current / entry - 1) 1).1
         (delete (upper symbol) (open_calls self))
         (journal self ++ [decision_call_resolved event]),
       Some event)
    /\ resolved_outcome event = outcome_of self (current / entry - 1)
    /\ resolved_realized_return event = current / entry - 1
    /\ resolved_feature_profile event = call_feature_profile call.
Proof.
  intros Hc Hcall Hcreated Hhor Hentry He. unfold maybe_resolve_call.
  rewrite Rle_bool_false by exact Hc. rewrite Hcall, Hcreated.
  destruct (Z.ltb_spec (now - created) (evaluation_horizon self)) as [Hlt | _]; [lia |].
  rewrite Hentry. rewrite Rle_bool_false by exact He.
  fold (outcome_of self (current / entry - 1)).
  destruct (_update_penalties self (call_feature_profile call) (current / entry - 1)
              (outcome_of self (current / entry - 1))) as [penalties update_summary].
  destruct (_update_source_bias self (_normalize_source_profile (call_source_profile call))
              (current / entry - 1) 1) as [bias source_update_summary].
  eexists. split; [reflexivity |]. cbn. repeat split; reflexivity.
Qed.

Lemma maybe_resolve_call_cases self symbol current now :
  resolvable self symbol current now
  \/ discards self symbol current now
     /\ maybe_resolve_call self symbol current now = discard_call self (upper symbol)
  \/ ~ discards self symbol current now
     /\ maybe_resolve_call self symbol current now = (self, None).
Proof.
  unfold maybe_resolve_call, resolvable, discards.
  destruct (Rle_dec current 0) as [Hc | Hc].
  { right. right. rewrite Rle_bool_true by exact Hc. split; [| reflexivity]. lra. }
  rewrite Rle_bool_false by lra.
  destruct (open_calls self !! upper symbol) as [call |] eqn:Hcall.
  2: { right. right. split; [| reflexivity]. intros (_ & c & Hc' & _). discriminate. }
  destruct (call_created_at call) as [| raw | created] eqn:Hcreated.
  - right. left. split; [| reflexivity]. split; [lra |]. exists call. now rewrite Hcreated.
  - right. left. split; [| reflexivity]. split; [lra |]. exists call. now rewrite Hcreated.
  - destruct (Z.ltb_spec (now - created) (evaluation_horizon self)) as [Hlt | Hge].
    { right. right. split; [| reflexivity].
      intros (_ & c & [= <-] & Hm). rewrite Hcreated in Hm. lia. }
    destruct (call_entry_price call) as [entry |] eqn:Hentry.
    + destruct (Rle_dec entry 0) as [He | He].
      * rewrite Rle_bool_true by exact He. right. left. split; [| reflexivity].
        split; [lra |]. exists call. rewrite Hcreated, Hentry. auto.
      * left. split; [lra |]. exists call, created, entry. repeat split; auto. lra.
    + right. left. split; [| reflexivity].
      split; [lra |]. exists call. rewrite Hcreated, Hentry. auto.
Qed.

Lemma resolvable_not_discards self symbol current now :
  resolvable self symbol current now -> ~ discards self symbol current now.
Proof.
  intros (_ & call & created & entry & Hcall & Hcreated & Hhor & Hentry & He)
         (_ & call' & Hcall' & Hm).
  rewrite Hcall in Hcall'. injection Hcall' as <-.
  rewrite Hcreated, Hentry in Hm. lra.
Qed.

Lemma maybe_resolve_call_bounds self symbol current now :
  0 <= max_feature_penalty self -> penalties_in_bounds self ->
  penalties_in_bounds (maybe_resolve_call self symbol current now).1.
Proof.
  intros Hmax Hb.
  destruct (maybe_resolve_call_cases self symbol current now)
    as [Hres | [[_ ->] | [_ ->]]]; [| exact Hb | exact Hb].
  destruct Hres as (Hc & call & created & entry & Hcall & Hcreated & Hhor & Hentry & He).
  destruct (maybe_resolve_call_resolves self symbol current now call created entry
              Hc Hcall Hcreated Hhor Hentry He) as (event & -> & _).
  unfold penalties_in_bounds. cbn [fst with_state feature_penalties max_feature_penalty].
  now apply _update_penalties_bounds.
Qed.

(** A resolution whose return is at or below the bad-call threshold leaves
    clamp(before + rate * magnitude * exposure) at every exposed feature key. *)
Lemma maybe_resolve_call_bad_penalty self symbol current now call created entry key :
  0 < current ->
  open_calls self !! upper symbol = Some call ->
  call_created_at call = Instant created ->
  (evaluation_horizon self <= now - created)%Z ->
  call_entry_price call = Some entry ->
  0 < entry ->
  current / entry - 1 <= bad_call_return_threshold self ->
  In key FEATURE_KEYS ->
  0 < exposure_of (call_feature_profile call) key ->
  (exists event,
      (maybe_resolve_call self symbol current now).2 = Some event
      /\ resolved_outcome event = bad_call)
  /\ penalty_of (feature_penalties (maybe_resolve_call self symbol current now).1) key
     = _clamp (penalty_of (feature_penalties self) key
               + learning_rate self * Rmin (Rabs (current / entry - 1) / 0.05) 2
                 * exposure_of (call_feature_profile call) key)
              0 (max_feature_penalty self).
Proof.
  intros Hc Hcall Hcreated Hhor Hentry He Hbad Hkey Hexp.
  destruct (maybe_resolve_call_resolves self symbol current now call created entry
              Hc Hcall Hcreated Hhor Hentry He) as (event & -> & Hout & _).
  assert (outcome_of self (current / entry - 1) = bad_call) as Hoc.
  { unfold outcome_of. now rewrite Rle_bool_true. }
  rewrite Hoc in *. cbn [fst snd with_state feature_penalties].
  split; [eauto |].
  rewrite _update_penalties_key by exact Hkey.
  unfold step_value. rewrite Req_bool_false by lra. reflexivity.
Qed.

(** C2 (as the code has it). After any [maybe_resolve_call] every feature
    penalty is still within [0, max_feature_penalty]. When the call resolves
    as a bad call, each key of FEATURE_KEYS with positive exposure gets
    clamp(before + learning_rate * magnitude * exposure, 0, max), with
    magnitude = min(|realized_return| / 0.05, 2.0): the penalty never
    decreases, it grows by exactly that amount while the cap is not reached,
    and it strictly increases when learning_rate > 0, realized_return <> 0
    and the penalty was below the cap. *)
Theorem bad_call_raises_penalties self symbol current now :
  0 <= learning_rate self -> 0 <= max_feature_penalty self -> penalties_in_bounds self ->
  penalties_in_bounds (maybe_resolve_call self symbol current now).1
  /\ forall call created entry key,
      0 < current ->
      open_calls self !! upper symbol = Some call ->
      call_created_at call = Instant created ->
      (evaluation_horizon self <= now - created)%Z ->
      call_entry_price call = Some entry ->
      0 < entry ->
      current / entry - 1 <= bad_call_return_threshold self ->
      In key FEATURE_KEYS ->
      0 < exposure_of (call_feature_profile call) key ->
      let before := penalty_of (feature_penalties self) key in
      let after :=
        penalty_of (feature_penalties (maybe_resolve_call self symbol current now).1) key in
      let increase :=
        learning_rate self * Rmin (Rabs (current / entry - 1) / 0.05) 2
        * exposure_of (call_feature_profile call) key in
      after = _clamp (before + increase) 0 (max_feature_penalty self)
      /\ before <= after
      /\ (before + increase <= max_feature_penalty self -> after = before + increase)
      /\ (0 < learning_rate self -> current / entry - 1 <> 0 ->
          before < max_feature_penalty self -> before < after).
Proof.
  intros Hrate Hmax Hb. split; [now apply maybe_resolve_call_bounds |].
  intros call created entry key Hc Hcall Hcreated Hhor Hentry He Hbad Hkey Hexp
         before after increase.
  destruct (maybe_resolve_call_bad_penalty self symbol current now call created entry key
              Hc Hcall Hcreated Hhor Hentry He Hbad Hkey Hexp) as [_ Hafter].
  fold before increase after in Hafter.
  assert (0 <= before <= max_feature_penalty self) as Hbefore.
  { unfold before, penalty_of.
    destruct (feature_penalties self !! key) as [p |] eqn:E; simpl.
    - exact (Hb _ _ E).
    - lra. }
  assert (0 <= Rmin (Rabs (current / entry - 1) / 0.05) 2) as Hmag.
  { pose proof (Rabs_pos (current / entry - 1)). unfold Rmin. case_Rle; lra. }
  assert (0 <= increase) as Hinc.
  { unfold increase. apply Rmult_le_pos; [apply Rmult_le_pos; assumption | lra]. }
  split; [exact Hafter |]. rewrite Hafter.
  split; [clamp_cases; lra |].
  split; [intros Hroom; clamp_cases; lra |].
  intros Hrate' Hrr Hroom.
  assert (0 < Rmin (Rabs (current / entry - 1) / 0.05) 2) as Hmag'.
  { pose proof (Rabs_pos_lt _ Hrr). unfold Rmin. case_Rle; lra. }
  assert (0 < increase) as Hinc'.
  { unfold increase. repeat apply Rmult_lt_0_compat; assumption. }
  clamp_cases; lra.
Qed.

(** [__init__] establishes the bounds the update rules rely on. *)
Lemma new_store_bounds hours bad good rate cap enable srate sbias strength :
  let self := new_store hours bad good rate cap enable srate sbias strength in
  0 <= learning_rate self <= 1
  /\ 0 <= max_feature_penalty self
  /\ penalties_in_bounds self.
Proof.
  cbn zeta. unfold new_store, penalties_in_bounds.
  cbn [learning_rate max_feature_penalty feature_penalties].
  split; [apply _clamp_bounds; lra |].
  split; [apply Rmax_l |].
  intros key p H.
  apply elem_of_list_to_map_2, list_elem_of_In in H. simpl in H.
  pose proof (Rmax_l 0 cap).
  repeat (destruct H as [H | H]; [injection H as _ <-; lra |]).
  contradiction.
Qed.

Lemma bad_call_raises_penalties_witness :
  let self := example_ledger (feature_penalties example_config)
                (example_call (Instant 0) (Some 100)) in
  penalties_in_bounds (maybe_resolve_call self "nvda" 90 one_day).1
  /\ penalty_of (feature_penalties self) "momentum_20d"
     < penalty_of (feature_penalties (maybe_resolve_call self "nvda" 90 one_day).1)
         "momentum_20d".
Proof.
  intros self.
  destruct (new_store_bounds 24 (-0.03) 0.03 0.2 0.5 true 0.18 0.8 0.35)
    as (Hrate & Hcap & Hbounds).
  destruct (bad_call_raises_penalties self "nvda" 90 one_day) as [Hb Hkey].
  - apply Hrate.
  - exact Hcap.
  - exact Hbounds.
  - split; [exact Hb |].
    apply (Hkey (example_call (Instant 0) (Some 100)) 0%Z 100 "momentum_20d"%string).
    + lra.
    + reflexivity.
    + reflexivity.
    + vm_compute. discriminate.
    + reflexivity.
    + lra.
    + simpl. lra.
    + simpl. tauto.
    + unfold exposure_of. simpl. unfold Rmax. case_Rle; lra.
    + simpl. clamp_cases; lra.
    + lra.
    + replace (penalty_of (feature_penalties self) "momentum_20d") with 0 by reflexivity.
      simpl. unfold Rmax. case_Rle; lra.
Defined.

(** With the momentum_20d penalty already at the cap of 0.5, a bad call
    with positive momentum_20d exposure leaves that penalty where it was. *)
Lemma bad_call_at_cap_counterexample :
  let self := example_ledger (<["momentum_20d"%string := 0.5]> (feature_penalties example_config))
                (example_call (Instant 0) (Some 100)) in
  (exists event,
      (maybe_resolve_call self "NVDA" 90 one_day).2 = Some event
      /\ resolved_outcome event = bad_call)
  /\ 0 < exposure_of example_profile "momentum_20d"
  /\ penalty_of (feature_penalties (maybe_resolve_call self "NVDA" 90 one_day).1)
       "momentum_20d"
     = penalty_of (feature_penalties self) "momentum_20d".
Proof.
  intros self.
  assert (0 < exposure_of example_profile "momentum_20d") as Hexp.
  { unfold exposure_of. simpl. unfold Rmax. case_Rle; lra. }
  destruct (maybe_resolve_call_bad_penalty self "NVDA" 90 one_day
              (example_call (Instant 0) (Some 100)) 0%Z 100 "momentum_20d"%string)
    as [Hev Hafter].
  - lra.
  - reflexivity.
  - reflexivity.
  - vm_compute. discriminate.
  - reflexivity.
  - lra.
  - simpl. lra.
  - simpl. tauto.
  - exact Hexp.
  - split; [exact Hev |]. split; [exact Hexp |].
    rewrite Hafter.
    replace (penalty_of (feature_penalties self) "momentum_20d") with 0.5 by reflexivity.
    replace (max_feature_penalty self) with (Rmax 0 0.5) by reflexivity.
    replace (learning_rate self) with (_clamp 0.2 0 1) by reflexivity.
    pose proof (Rabs_pos (90 / 100 - 1)) as Habs.
    set (m := Rmin (Rabs (90 / 100 - 1) / 0.05) 2).
    assert (0 <= m) by (unfold m, Rmin; case_Rle; lra).
    set (e := exposure_of (call_feature_profile (example_call (Instant 0) (Some 100)))
                "momentum_20d") in *.
    assert (0 < e) by exact Hexp.
    assert (_clamp 0.2 0 1 = 0.2) as -> by (apply _clamp_id; lra).
    assert (Rmax 0 0.5 = 0.5) as -> by (unfold Rmax; case_Rle; lra).
    assert (0 <= 0.2 * m * e) by (apply Rmult_le_pos; [lra | lra]).
    clamp_cases; lra.
Qed.

(** C4 (as the code has it). Unless an open call exists, its timestamp
    parses, current_price > 0, entry_price > 0 and the horizon has elapsed,
    [maybe_resolve_call] returns None and leaves penalties, source biases,
    observations and journal unchanged. The ledger is unchanged too, except
    that an entry whose timestamp is missing or unparseable, or whose
    entry price is missing or not positive once the horizon has elapsed, is
    removed. *)
Theorem maybe_resolve_call_noop self symbol current now :
  ~ resolvable self symbol current now ->
  let post := (maybe_resolve_call self symbol current now).1 in
  (maybe_resolve_call self symbol current now).2 = None
  /\ feature_penalties post = feature_penalties self
  /\ source_bias post = source_bias self
  /\ market_observations post = market_observations self
  /\ journal post = journal self
  /\ (discards self symbol current now ->
      open_calls post = delete (upper symbol) (open_calls self))
  /\ (~ discards self symbol current now -> post = self).
Proof.
  intros Hnot post. subst post.
  destruct (maybe_resolve_call_cases self symbol current now)
    as [Hres | [[Hd ->] | [Hd ->]]]; [contradiction | |].
  - unfold discard_call. cbn. repeat split; try reflexivity. contradiction.
  - cbn. repeat split; try reflexivity. contradiction.
Qed.

Lemma maybe_resolve_call_noop_witness :
  let self := example_ledger (feature_penalties example_config)
                (example_call (Instant 0) (Some 100)) in
  (maybe_resolve_call self "NVDA" 90 (one_day - 1)).2 = None
  /\ (maybe_resolve_call self "NVDA" 90 (one_day - 1)).1 = self.
Proof.
  intros self.
  assert (~ resolvable self "NVDA" 90 (one_day - 1)) as Hnot.
  { intros (_ & call & created & entry & Hcall & Hcreated & Hhor & _).
    vm_compute in Hcall. injection Hcall as <-.
    injection Hcreated as <-. vm_compute in Hhor. contradiction. }
  destruct (maybe_resolve_call_noop self "NVDA" 90 (one_day - 1) Hnot)
    as (Hnone & _ & _ & _ & _ & _ & Hsame).
  split; [exact Hnone |]. apply Hsame.
  intros (_ & call & Hcall & Hm).
  vm_compute in Hcall. injection Hcall as <-.
  cbn in Hm. destruct Hm as [Hhor _]. vm_compute in Hhor. contradiction.
Defined.

(** A ledger entry whose [created_at] is not a string cannot be resolved,
    yet the call is not a no-op on the ledger: the entry is removed. *)
Lemma maybe_resolve_call_discards_counterexample :
  let self := example_ledger (feature_penalties example_config)
                (example_call NotAString (Some 100)) in
  ~ resolvable self "NVDA" 90 one_day
  /\ open_calls self !! "NVDA"%string = Some (example_call NotAString (Some 100))
  /\ open_calls (maybe_resolve_call self "NVDA" 90 one_day).1 !! "NVDA"%string = None.
Proof.
  intros self. split; [| split].
  - intros (_ & call & created & entry & Hcall & Hcreated & _).
    vm_compute in Hcall. injection Hcall as <-. discriminate.
  - reflexivity.
  - unfold maybe_resolve_call. rewrite Rle_bool_false by lra.
    replace (open_calls self !! upper "NVDA")
      with (Some (example_call NotAString (Some 100))) by reflexivity.
    cbn. apply lookup_delete_eq.
Qed.

Lemma maybe_record_call_below self signal fp sp entry option_ now uuid :
  score signal < Rmin entry option_ ->
  maybe_record_call self signal fp sp entry option_ now uuid = self.
Proof. intros H. unfold maybe_record_call. now rewrite Rlt_bool_true. Qed.

Lemma maybe_record_call_existing self signal fp sp entry option_ now uuid :
  is_Some (open_calls self !! upper (symbol signal)) ->
  maybe_record_call self signal fp sp entry option_ now uuid = self.
Proof.
  intros [call Hcall]. unfold maybe_record_call. rewrite Hcall.
  now destruct (Rlt_bool (score signal) (Rmin entry option_)).
Qed.

Lemma maybe_record_call_opens self signal fp sp entry option_ now uuid :
  Rmin entry option_ <= score signal ->
  open_calls self !! upper (symbol signal) = None ->
  exists call event,
    maybe_record_call self signal fp sp entry option_ now uuid
    = with_state self (feature_penalties self) (source_bias self)
        (<[upper (symbol signal) := call]> (open_calls self))
        (journal self ++ [decision_call_opened event])
    /\ call_symbol call = upper (symbol signal)
    /\ call_id call = uuid
    /\ call_created_at call = Instant now
    /\ call_entry_price call = Some (price signal).
Proof.
  intros Hscore Hnone. unfold maybe_record_call.
  rewrite Rlt_bool_false by exact Hscore. rewrite Hnone.
  eexists _, _. split; [reflexivity |]. cbn. repeat split; reflexivity.
Qed.

Lemma maybe_record_call_has_call self signal fp sp entry option_ now uuid :
  Rmin entry option_ <= score signal ->
  is_Some (open_calls (maybe_record_call self signal fp sp entry option_ now uuid)
             !! upper (symbol signal)).
Proof.
  intros Hscore.
  destruct (open_calls self !! upper (symbol signal)) as [call |] eqn:Hcall.
  - rewrite maybe_record_call_existing by eauto. rewrite Hcall. eauto.
  - destruct (maybe_record_call_opens self signal fp sp entry option_ now uuid Hscore Hcall)
      as (call & event & -> & _).
    cbn. rewrite lookup_insert_eq. eauto.
Qed.

Lemma maybe_record_call_keyed self signal fp sp entry option_ now uuid :
  ledger_keyed self ->
  ledger_keyed (maybe_record_call self signal fp sp entry option_ now uuid).
Proof.
  intros Hk.
  destruct (Rlt_dec (score signal) (Rmin entry option_)) as [Hlow | Hhigh].
  { now rewrite maybe_record_call_below. }
  destruct (open_calls self !! upper (symbol signal)) as [call |] eqn:Hcall.
  { rewrite maybe_record_call_existing by eauto. exact Hk. }
  destruct (maybe_record_call_opens self signal fp sp entry option_ now uuid) as
    (call & event & -> & Hsym & _); [lra | exact Hcall |].
  intros key c. cbn. rewrite lookup_insert. case_decide as Hkey.
  - intros [= <-]. now rewrite Hsym.
  - apply Hk.
Qed.

Lemma maybe_resolve_call_keyed self symbol current now :
  ledger_keyed self -> ledger_keyed (maybe_resolve_call self symbol current now).1.
Proof.
  intros Hk.
  assert (forall key call, delete (upper symbol) (open_calls self) !! key = Some call ->
                           call_symbol call = key) as Hdel.
  { intros key call H. apply lookup_delete_Some in H. apply Hk, H. }
  destruct (maybe_resolve_call_cases self symbol current now)
    as [Hres | [[_ ->] | [_ ->]]]; [| exact Hdel | exact Hk].
  destruct Hres as (Hc & call & created & entry & Hcall & Hcreated & Hhor & Hentry & He).
  destruct (maybe_resolve_call_resolves self symbol current now call created entry
              Hc Hcall Hcreated Hhor Hentry He) as (event & -> & _).
  exact Hdel.
Qed.

(** In a list of entries with distinct keys, each filed under its own
    symbol, at most one call carries a given symbol. *)
Lemma calls_of_symbol_unique (entries : list (string * OpenCall)) (sym : string) :
  List.NoDup (map fst entries) ->
  (forall key call, In (key, call) entries -> call_symbol call = key) ->
  (length (List.filter (fun call => String.eqb (call_symbol call) sym)
             (map snd entries)) <= 1)%nat
  /\ ((exists call, In (sym, call) entries) ->
      length (List.filter (fun call => String.eqb (call_symbol call) sym)
                (map snd entries)) = 1%nat).
Proof.
  induction entries as [| [key call] entries IH]; intros Hnd Hkeyed.
  - simpl. split; [lia |]. intros [call []].
  - simpl in Hnd. inversion Hnd as [| ? ? Hnotin Hnd']; subst.
    destruct IH as [IHle IHone]; [exact Hnd' | |].
    { intros k c H. apply Hkeyed. now right. }
    assert (call_symbol call = key) as Hsym by (apply Hkeyed; now left).
    simpl. rewrite Hsym.
    destruct (String.eqb_spec key sym) as [-> | Hne].
    + assert (List.filter (fun c => String.eqb (call_symbol c) sym) (map snd entries) = [])
        as Hnone.
      { clear - Hnotin Hkeyed. induction entries as [| [k c] entries IH]; [reflexivity |].
        simpl. rewrite (Hkeyed k c) by (right; now left).
        destruct (String.eqb_spec k sym) as [-> | Hne].
        - exfalso. apply Hnotin. now left.
        - apply IH.
          + intros H. apply Hnotin. now right.
          + intros k' c' [H | H]; apply Hkeyed; [now left | right; now right]. }
      rewrite Hnone. simpl. split; [lia | reflexivity].
    + split; [exact IHle |]. intros [c [H | H]].
      * congruence.
      * apply IHone. eauto.
Qed.

Lemma calls_for_at_most_one self sym :
  ledger_keyed self -> (length (calls_for self sym) <= 1)%nat.
Proof.
  intros Hk. unfold calls_for. apply calls_of_symbol_unique.
  - apply NoDup_ListNoDup, NoDup_fst_map_to_list.
  - intros key call H. apply Hk, elem_of_map_to_list, list_elem_of_In, H.
Qed.

Lemma calls_for_exactly_one self sym :
  ledger_keyed self -> is_Some (open_calls self !! sym) ->
  length (calls_for self sym) = 1%nat.
Proof.
  intros Hk [call Hcall]. unfold calls_for. apply calls_of_symbol_unique.
  - apply NoDup_ListNoDup, NoDup_fst_map_to_list.
  - intros key c H. apply Hk, elem_of_map_to_list, list_elem_of_In, H.
  - exists call. apply list_elem_of_In, elem_of_map_to_list, Hcall.
Qed.

Lemma new_store_keyed hours bad good rate cap enable srate sbias strength :
  ledger_keyed (new_store hours bad good rate cap enable srate sbias strength).
Proof. intros key call. cbn. rewrite lookup_empty. discriminate. Qed.

(** C5. On a ledger filed by symbol, [maybe_record_call] keeps it so, and
    no symbol ever has more than one open call. A call is created only when
    the score reaches min(entry_threshold, option_threshold) and the symbol
    has no open call. Once the first of two calls for the same symbol has a
    qualifying score, the symbol has exactly one open call and the second
    call changes nothing. *)
Theorem maybe_record_call_once self signal signal' fp fp' sp sp'
    entry option_ entry' option' now now' uuid uuid' :
  upper (symbol signal') = upper (symbol signal) ->
  ledger_keyed self ->
  let first := maybe_record_call self signal fp sp entry option_ now uuid in
  let second := maybe_record_call first signal' fp' sp' entry' option' now' uuid' in
  ledger_keyed first
  /\ (forall sym, (length (calls_for first sym) <= 1)%nat)
  /\ (first <> self ->
      Rmin entry option_ <= score signal
      /\ open_calls self !! upper (symbol signal) = None)
  /\ (is_Some (open_calls first !! upper (symbol signal)) -> second = first)
  /\ (Rmin entry option_ <= score signal ->
      second = first
      /\ length (calls_for second (upper (symbol signal))) = 1%nat).
Proof.
  intros Hsame Hk first second.
  assert (ledger_keyed first) as Hk1 by now apply maybe_record_call_keyed.
  assert (is_Some (open_calls first !! upper (symbol signal)) -> second = first) as Hnoop.
  { intros Hsome. unfold second. apply maybe_record_call_existing. now rewrite Hsame. }
  split; [exact Hk1 |].
  split; [intros sym; now apply calls_for_at_most_one |].
  split; [| split; [exact Hnoop |]].
  - intros Hchanged.
    destruct (Rlt_dec (score signal) (Rmin entry option_)) as [Hlow | Hhigh].
    { exfalso. apply Hchanged. now apply maybe_record_call_below. }
    split; [lra |].
    destruct (open_calls self !! upper (symbol signal)) as [call |] eqn:Hcall;
      [| reflexivity].
    exfalso. apply Hchanged. apply maybe_record_call_existing. rewrite Hcall. eauto.
  - intros Hscore.
    assert (is_Some (open_calls first !! upper (symbol signal))) as Hsome
        by now apply maybe_record_call_has_call.
    split; [now apply Hnoop |].
    rewrite (Hnoop Hsome). now apply calls_for_exactly_one.
Qed.

Lemma maybe_record_call_once_witness :
  let first :=
    maybe_record_call example_config (example_signal "NVDA" 0.2) example_profile []
      0.05 0.1 0 "call-1" in
  let second :=
    maybe_record_call first (example_signal "nvda" 0.3) example_profile []
      0.05 0.1 one_day "call-2" in
  second = first /\ length (calls_for second "NVDA") = 1%nat.
Proof.
  intros first second.
  apply (maybe_record_call_once example_config (example_signal "NVDA" 0.2)
           (example_signal "nvda" 0.3) example_profile example_profile [] []
           0.05 0.1 0.05 0.1 0%Z one_day "call-1" "call-2").
  - reflexivity.
  - apply new_store_keyed.
  - simpl. unfold Rmin. case_Rle; lra.
Defined.

End LearningFacts.

(** ** Properties of order construction *)

Section EngineFacts.

Import Options Engine.

Lemma Rlt_bool_false_inv x y : Rlt_bool x y = false -> y <= x.
Proof. unfold Rlt_bool. destruct (Rlt_dec x y); [discriminate | lra]. Qed.

Lemma slice_to_within {A : Type} (P : A -> Prop) (n : Z) (l : list A) :
  Forall P l -> Forall P (slice_to n l).
Proof. intros H. unfold slice_to. destruct (0 <=? n)%Z; now apply Forall_take. Qed.

Lemma truncate_within config emissions :
  Forall within_cash emissions -> Forall within_cash (truncate config emissions).
Proof.
  intros H. unfold truncate.
  destruct (max_orders_per_cycle config <? Z.of_nat (length emissions))%Z;
    [now apply slice_to_within | exact H].
Qed.

Lemma entry_step_within config snapshot target_qty acc signal :
  Forall within_cash acc.1 ->
  Forall within_cash (entry_step config snapshot target_qty acc signal).1.
Proof.
  destruct acc as [orders estimated_cash]. cbn [fst]. intros H. unfold entry_step.
  destruct (_ <=? 0)%Z; [exact H |].
  destruct (Rlt_bool _ (min_order_notional config)); [exact H |].
  destruct (Rlt_bool estimated_cash _) eqn:Hcash; [exact H |].
  cbn [fst]. apply Forall_app. split; [exact H |].
  apply Forall_cons. split; [| apply Forall_nil; exact I].
  unfold within_cash. cbn.
  exists signal. repeat split. now apply Rlt_bool_false_inv.
Qed.

Lemma entry_loop_within config snapshot target_qty candidates acc :
  Forall within_cash acc.1 ->
  Forall within_cash (fold_left (entry_step config snapshot target_qty) candidates acc).1.
Proof.
  revert acc. induction candidates as [| signal candidates IH]; intros acc H; simpl.
  - exact H.
  - apply IH. now apply entry_step_within.
Qed.

Lemma sell_within orders sym qty why cash :
  Forall within_cash orders ->
  Forall within_cash
    (orders ++ [mkEmission (mkTradeOrder EQUITY sym SELL qty None why) FromPosition cash]).
Proof.
  intros H. apply Forall_app. split; [exact H |].
  apply Forall_cons. split; [exact I | apply Forall_nil; exact I].
Qed.

Lemma exit_step_within config signals_by_symbol forced_exits target_qty acc item acc' :
  exit_step config signals_by_symbol forced_exits target_qty acc item = Return acc' ->
  Forall within_cash acc.1 -> Forall within_cash acc'.1.
Proof.
  destruct acc as [orders estimated_cash]. destruct item as [sym qty].
  unfold exit_step. cbn [fst]. intros Hstep H.
  repeat match type of Hstep with
         | Return _ = Return _ => injection Hstep as <-
         | Raise _ = Return _ => discriminate Hstep
         | context [if ?b then _ else _] => destruct b
         | context [match ?o with Some _ => _ | None => _ end] => destruct o
         end;
    cbn [fst]; try exact H; now apply sell_within.
Qed.

Lemma exit_loop_within config signals_by_symbol forced_exits target_qty positions acc acc' :
  exit_loop config signals_by_symbol forced_exits target_qty positions acc = Return acc' ->
  Forall within_cash acc.1 -> Forall within_cash acc'.1.
Proof.
  revert acc. induction positions as [| item positions IH]; intros acc Hloop H; simpl in Hloop.
  - now injection Hloop as <-.
  - destruct (exit_step config signals_by_symbol forced_exits target_qty acc item)
      as [acc1 | e] eqn:Hstep; simpl in Hloop; [| discriminate].
    apply (IH acc1 Hloop). exact (exit_step_within _ _ _ _ _ _ _ Hstep H).
Qed.

Lemma _build_equity_orders_within config snapshot signals signals_by_symbol account_equity
    override forced_exit_symbols emissions estimated_cash :
  _build_equity_orders config snapshot signals signals_by_symbol account_equity
    override forced_exit_symbols = Return (emissions, estimated_cash) ->
  Forall within_cash emissions.
Proof.
  unfold _build_equity_orders. intros H.
  match type of H with
  | mbind _ ?t = _ => destruct t as [target_qty | e]; simpl in H; [| discriminate]
  end.
  match type of H with
  | mbind _ ?t = _ => destruct t as [exits | e] eqn:Hexits; simpl in H; [| discriminate]
  end.
  injection H as H.
  apply exit_loop_within in Hexits; [| apply Forall_nil; exact I].
  match type of H with
  | fold_left ?f ?l ?a = _ =>
      pose proof (entry_loop_within config snapshot target_qty l a Hexits) as Hall
  end.
  rewrite H in Hall. exact Hall.
Qed.

Lemma close_step_within config signals_by_symbol forced_exits estimated_cash orders item :
  Forall within_cash orders ->
  Forall within_cash
    (close_step config signals_by_symbol forced_exits estimated_cash orders item).
Proof.
  destruct item as [option_symbol qty]. unfold close_step. intros H.
  assert (forall why,
             Forall within_cash
               (orders ++ [mkEmission
                             (mkTradeOrder OPTION option_symbol SELL_TO_CLOSE qty None why)
                             FromPosition estimated_cash])) as Hclose.
  { intros why. apply Forall_app. split; [exact H |].
    apply Forall_cons. split; [exact I | apply Forall_nil; exact I]. }
  destruct (qty <=? 0)%Z; [exact H |].
  destruct (mem _ forced_exits); [apply Hclose |].
  destruct (signals_by_symbol !! _) as [signal |]; [| exact H].
  destruct (Rle_bool _ _); [apply Hclose | exact H].
Qed.

Lemma close_loop_within config signals_by_symbol forced_exits estimated_cash positions orders :
  Forall within_cash orders ->
  Forall within_cash
    (fold_left (close_step config signals_by_symbol forced_exits estimated_cash)
       positions orders).
Proof.
  revert orders. induction positions as [| item positions IH]; intros orders H; simpl.
  - exact H.
  - apply IH. now apply close_step_within.
Qed.

Lemma open_loop_within config broker forced_exits overridden candidates st :
  Forall within_cash (os_orders st) ->
  Forall within_cash
    (os_orders (open_loop config broker forced_exits overridden candidates st)).
Proof.
  revert st. induction candidates as [| signal candidates IH]; intros st H; simpl.
  - exact H.
  - destruct (remaining_slots st <=? 0)%Z; [exact H |].
    destruct (mem _ forced_exits); [now apply IH |].
    destruct (negb overridden && _); [exact H |].
    destruct (mem _ (option_underlyings_held st)); [now apply IH |].
    destruct (Rlt_bool _ (min_order_notional config)); [exact H |].
    destruct (get_option_chain broker (symbol signal)) as [chain |]; [| now apply IH].
    destruct (choose_bullish_call _ _ _ _ _) as [contract |]; [| now apply IH].
    destruct (Rlt_bool _ (premium_per_contract contract)) eqn:Hbudget; [now apply IH |].
    apply IH. cbn [os_orders]. apply Forall_app. split; [exact H |].
    apply Forall_cons. split; [| apply Forall_nil; exact I].
    unfold within_cash. cbn. exists signal, contract. repeat split.
    apply Rlt_bool_false_inv in Hbudget.
    eapply Rle_trans; [exact Hbudget | apply Rmin_r].
Qed.

Lemma _build_option_orders_within config broker snapshot signals signals_by_symbol
    account_equity estimated_cash override forced_exit_symbols :
  Forall within_cash
    (_build_option_orders config broker snapshot signals signals_by_symbol
       account_equity estimated_cash override forced_exit_symbols).
Proof.
  unfold _build_option_orders.
  destruct (negb (enable_options config) || _); [apply Forall_nil; exact I |].
  assert (Forall within_cash
            (fold_left (close_step config signals_by_symbol (map upper forced_exit_symbols)
                          estimated_cash)
               (option_positions snapshot) [])) as Hclose
      by (apply close_loop_within, Forall_nil; exact I).
  destruct (_ <=? 0)%Z; [exact Hclose |].
  destruct (Rlt_bool _ (min_order_notional config)); [exact Hclose |].
  apply open_loop_within. exact Hclose.
Qed.

Lemma _build_orders_from_llm_plan_within config broker snapshot signals signals_by_symbol
    account_equity plan emissions :
  _build_orders_from_llm_plan config broker snapshot signals signals_by_symbol
    account_equity plan = Return emissions ->
  Forall within_cash emissions.
Proof.
  unfold _build_orders_from_llm_plan. intros H.
  match type of H with
  | mbind _ ?t = _ => destruct t as [[equity_orders est_cash] | e] eqn:Hequity;
                      simpl in H; [| discriminate]
  end.
  injection H as <-. apply truncate_within, Forall_app. split.
  - exact (_build_equity_orders_within _ _ _ _ _ _ _ _ _ Hequity).
  - apply _build_option_orders_within.
Qed.

Lemma rule_based_orders_within config broker snapshot signals signals_by_symbol
    account_equity emissions used :
  rule_based_orders config broker snapshot signals signals_by_symbol account_equity
    = Return (emissions, used) ->
  Forall within_cash emissions.
Proof.
  unfold rule_based_orders. intros H.
  match type of H with
  | mbind _ ?t = _ => destruct t as [[equity_orders est_cash] | e] eqn:Hequity;
                      simpl in H; [| discriminate]
  end.
  injection H as <- _. apply truncate_within, Forall_app. split.
  - exact (_build_equity_orders_within _ _ _ _ _ _ _ _ _ Hequity).
  - apply _build_option_orders_within.
Qed.

(** C6. Whatever order list [_build_orders] constructs, on the rule-based
    path or from an external plan, each BUY in it had a notional (quantity x
    signal price), and each BUY_TO_OPEN a contract premium, no greater than
    the running cash estimate at the moment the order was appended. *)
Theorem buys_within_estimated_cash config broker snapshot signals llm_plan emissions used :
  _build_orders config broker snapshot signals llm_plan = Return (emissions, used) ->
  Forall within_cash emissions.
Proof.
  unfold _build_orders. intros H.
  destruct signals as [| signal signals].
  { injection H as <- _. apply Forall_nil. exact I. }
  set (all := signal :: signals) in *.
  destruct llm_plan as [plan |];
    [| exact (rule_based_orders_within _ _ _ _ _ _ _ _ H)].
  destruct (enable_llm_first_decisioning config && _);
    [| exact (rule_based_orders_within _ _ _ _ _ _ _ _ H)].
  match type of H with
  | mbind _ ?t = _ => destruct t as [llm_orders | e] eqn:Hplan; simpl in H; [| discriminate]
  end.
  destruct llm_orders as [| first rest].
  - exact (rule_based_orders_within _ _ _ _ _ _ _ _ H).
  - injection H as <- _. apply truncate_within.
    exact (_build_orders_from_llm_plan_within _ _ _ _ _ _ _ _ Hplan).
Qed.

Lemma floordiv_eval x y (z : Z) :
  y <> 0 -> IZR z <= x / y < IZR z + 1 -> floordiv x y = Return z.
Proof.
  intros Hy Hz. unfold floordiv. rewrite Req_bool_false by exact Hy.
  now rewrite (Zfloor_eq z).
Qed.

(** An entry that passes the three checks is appended and paid for. *)
Lemma entry_step_buys config snapshot target_qty orders estimated_cash signal to_buy :
  (default 0 (target_qty !! symbol signal)
   - default 0 (od_get (equity_positions snapshot) (symbol signal)))%Z = to_buy ->
  (0 < to_buy)%Z ->
  min_order_notional config <= IZR to_buy * price signal <= estimated_cash ->
  entry_step config snapshot target_qty (orders, estimated_cash) signal
  = (orders ++ [mkEmission
                  (mkTradeOrder EQUITY (symbol signal) BUY to_buy
                     (Some (round2 (price signal * 1.0025))) (signal_entry (score signal)))
                  (FromSignal signal) estimated_cash],
     estimated_cash - IZR to_buy * price signal).
Proof.
  intros Hbuy Hpos [Hmin Hcash]. unfold entry_step. rewrite Hbuy.
  destruct (Z.leb_spec to_buy 0) as [Hle | _]; [lia |].
  rewrite !Rlt_bool_false by lra. reflexivity.
Qed.

(** An entry whose notional exceeds the running cash estimate is skipped. *)
Lemma entry_step_blocked config snapshot target_qty orders estimated_cash signal to_buy :
  (default 0 (target_qty !! symbol signal)
   - default 0 (od_get (equity_positions snapshot) (symbol signal)))%Z = to_buy ->
  estimated_cash < IZR to_buy * price signal ->
  entry_step config snapshot target_qty (orders, estimated_cash) signal
  = (orders, estimated_cash).
Proof.
  intros Hbuy Hcash. unfold entry_step. rewrite Hbuy.
  destruct (to_buy <=? 0)%Z; [reflexivity |].
  destruct (Rlt_bool _ (min_order_notional config)); [reflexivity |].
  now rewrite Rlt_bool_true.
Qed.

Lemma example_targets :
  target_quantities (Rmin (1000 * 0.5) (1000 * 1 / INR 2)) example_signals ∅
  = Return (<["BBB"%string := 5%Z]> (<["AAA"%string := 5%Z]> ∅)).
Proof.
  assert (Rmin (1000 * 0.5) (1000 * 1 / INR 2) = 500) as ->.
  { simpl. unfold Rmin. case_Rle; lra. }
  unfold example_signals. cbn [target_quantities example_signal price symbol].
  rewrite (floordiv_eval 500 100 5) by (simpl; lra). reflexivity.
Qed.

Lemma example_entries :
  fold_left
    (entry_step example_config example_snapshot
       (<["BBB"%string := 5%Z]> (<["AAA"%string := 5%Z]> ∅)))
    example_signals ([], 500)
  = (example_emissions, 500 - 5 * 100).
Proof.
  unfold example_signals. cbn [fold_left].
  rewrite (entry_step_buys _ _ _ _ _ _ 5%Z) by (reflexivity || lia || (simpl; lra)).
  rewrite (entry_step_blocked _ _ _ _ _ _ 5%Z) by (reflexivity || (simpl; lra)).
  reflexivity.
Qed.

Lemma example_equity_orders :
  _build_equity_orders example_config example_snapshot example_signals
    (signals_by_symbol_of example_signals) 1000 None []
  = Return (example_emissions, 500 - 5 * 100).
Proof.
  unfold _build_equity_orders.
  assert (List.filter (fun signal => Rle_bool (min_signal_to_enter example_config)
                                       (score signal)) example_signals
          = example_signals) as ->.
  { unfold example_signals. cbn [List.filter].
    rewrite !Rle_bool_true by (simpl; lra). reflexivity. }
  replace (slice_to (max_equity_positions example_config) example_signals)
    with example_signals by reflexivity.
  unfold example_signals at 1. fold example_signals.
  replace (length example_signals) with 2%nat by reflexivity.
  cbn [max_position_fraction equity_capital_fraction example_config].
  rewrite example_targets.
  cbn [equity_positions example_snapshot exit_loop cash].
  unfold example_signals. cbn [mbind result_bind]. fold example_signals.
  now rewrite example_entries.
Qed.

Lemma example_build_orders :
  _build_orders example_config example_broker example_snapshot example_signals None
  = Return (example_emissions, false).
Proof.
  unfold _build_orders.
  unfold example_signals at 1. fold example_signals.
  assert (_estimate_account_equity example_config example_broker example_snapshot
            (signals_by_symbol_of example_signals) = 1000) as ->.
  { unfold _estimate_account_equity. simpl. unfold Rmax. case_Rle; lra. }
  unfold rule_based_orders. rewrite example_equity_orders.
  reflexivity.
Qed.

Lemma buys_within_estimated_cash_witness : Forall within_cash example_emissions.
Proof.
  apply (buys_within_estimated_cash example_config example_broker example_snapshot
           example_signals None example_emissions false).
  apply example_build_orders.
Defined.

(** *** Order construction does not raise on signals with non-zero prices *)














End EngineFacts.

(** ** Further properties of strategy/signals.py *)

Section SignalShape.

Import Signals.














End SignalShape.

Section SignalProfile.

Import Signals DecisionLearning.



End SignalProfile.

(** ** Further properties of data/news.py *)

Section NewsShape.

Import News.















End NewsShape.

(** ** Further properties of LongTermMemoryStore *)

Section MemoryLaws.

Import Memory.


















End MemoryLaws.

(** ** Further properties of decision_learning.py *)

Section RationaleFacts.

Import DecisionLearning.









End RationaleFacts.

Section StoreFacts.

Import DecisionLearning.
















End StoreFacts.

Section SourceBiasFacts.

Import DecisionLearning.




















Lemma od_get_set {V : Type} (d : odict V) k v k' :
  od_get (od_set d k v) k' = if String.eqb k k' then Some v else od_get d k'.
Proof.
  induction d as [| [k0 v0] d IH]; cbn [od_set od_get].
  - reflexivity.
  - destruct (String.eqb k0 k) eqn:E.
    + apply String.eqb_eq in E. subst k0. cbn [od_get].
      now destruct (String.eqb k k').
    + cbn [od_get]. rewrite IH. destruct (String.eqb k0 k') eqn:E'; [| reflexivity].
      apply String.eqb_eq in E'. subst k0. rewrite String.eqb_sym in E. now rewrite E.
Qed.






End SourceBiasFacts.

(** ** Further properties of strategy/options.py and of order construction *)

Section OptionChoice.

Import Options.






End OptionChoice.

Section OrderShape.

Import Options Engine.

(** *** Invariants of the order list

    Order construction only ever appends to the list, at four places. A
    property of lists that is kept by these appends is therefore kept by
    each pass; [_build_orders] joins the two passes and cuts the result. *)

Section Appended.

Section EquityPass.

Variables exits entries : list Emission -> Prop.

Hypothesis exits_nil : exits [].

Hypothesis exits_sell :
  forall orders sym qty why estimated_cash,
    (0 < qty)%Z -> exits orders ->
    exits (orders ++ [mkEmission (mkTradeOrder EQUITY sym SELL qty None why)
                        FromPosition estimated_cash]).

Hypothesis exits_entries : forall orders, exits orders -> entries orders.

Hypothesis entries_buy :
  forall orders signal to_buy limit estimated_cash,
    (0 < to_buy)%Z -> entries orders ->
    entries (orders ++ [mkEmission
                          (mkTradeOrder EQUITY (symbol signal) BUY to_buy (Some limit)
                             (signal_entry (score signal)))
                          (FromSignal signal) estimated_cash]).





End EquityPass.

Section OptionPass.

Variables closes opens : list Emission -> Prop.

Hypothesis closes_nil : closes [].

Hypothesis closes_close :
  forall orders option_symbol qty why estimated_cash,
    (0 < qty)%Z -> closes orders ->
    closes (orders ++ [mkEmission
                         (mkTradeOrder OPTION option_symbol SELL_TO_CLOSE qty None why)
                         FromPosition estimated_cash]).

Hypothesis closes_opens : forall orders, closes orders -> opens orders.

Hypothesis opens_open :
  forall orders signal contract limit cash_left,
    opens orders ->
    opens (orders ++ [mkEmission
                        (mkTradeOrder OPTION (contract_symbol contract) BUY_TO_OPEN 1 limit
                           (option_overlay (symbol signal) (score signal) (dte contract)
                              (delta contract)))
                        (FromContract signal contract) cash_left]).




End OptionPass.


End Appended.
























End OrderShape.
